(** * evasion.messenger.endpoint: Transceiver and Register

    A shallow embedding of [lib/evasion/messenger/endpoint.py] (Python 2).

    - Python values are the inductive [pyobj]; byte strings ([str]) are
      [string], with [strip], [upper] and [lower] as the C locale has them.
    - [self._subscriptions] is a [gmap string (list pyobj)].
    - A method is a computation [M A]: it takes the [world] (the objects'
      fields and the trace of what happened so far) and gives back either a
      value or a raised exception, together with the new world.
    - Logging, calls of subscriber callbacks and ZeroMQ operations are
      recorded, in order, in the trace. A callback and a ZeroMQ operation
      belong to the outside: a parameter says, from the history and the
      operation, whether it raises. A callback does not reach back into the
      registry, and a call of the logger does not raise.
    - [json.loads] and [json.dumps] are parameters; the [frames] module is
      not among the sources and its two functions follow the specification.
    - [unicode] strings are left out. *)

From Stdlib Require Import Ascii String.
From stdpp Require Import base option list strings gmap.

Local Open Scope string_scope.
Local Open Scope list_scope.
Local Set Warnings "-register-all".

(** ** Python values *)

(** The values the endpoint handles: [None], integers, byte strings, lists,
    tuples, dictionaries with string keys (decoded JSON objects) and
    functions, a function being known by its identity. *)
Inductive pyobj : Type :=
  | PNone
  | PInt (z : Z)
  | PStr (s : string)
  | PList (xs : list pyobj)
  | PTuple (xs : list pyobj)
  | PDict (kvs : list (string * pyobj))
  | PFunc (f : nat).

Inductive exn : Type :=
  | TypeError
  | ValueError
  | IndexError
  | KeyError
  | ZMQError
  | MessageOutError
  | UserError (tag : string).

Inductive result (A : Type) : Type :=
  | Ok (a : A)
  | Raise (e : exn).
Arguments Ok {A} a.
Arguments Raise {A} e.

(** ** Byte strings: [str.strip], [str.upper], [str.lower] *)

Module PyStr.

(** [c.isspace()] for a byte: tab, newline, vertical tab, form feed,
    carriage return and space. *)
Definition isspace (c : ascii) : bool :=
  let n := nat_of_ascii c in
  ((9 <=? n)%nat && (n <=? 13)%nat) || (n =? 32)%nat.

Definition islower (c : ascii) : bool :=
  let n := nat_of_ascii c in (97 <=? n)%nat && (n <=? 122)%nat.

Definition isupper (c : ascii) : bool :=
  let n := nat_of_ascii c in (65 <=? n)%nat && (n <=? 90)%nat.

Definition upper_char (c : ascii) : ascii :=
  if islower c then ascii_of_nat (nat_of_ascii c - 32) else c.

Definition lower_char (c : ascii) : ascii :=
  if isupper c then ascii_of_nat (nat_of_ascii c + 32) else c.

Fixpoint upper (s : string) : string :=
  match s with
  | EmptyString => EmptyString
  | String c s' => String (upper_char c) (upper s')
  end.

Fixpoint lower (s : string) : string :=
  match s with
  | EmptyString => EmptyString
  | String c s' => String (lower_char c) (lower s')
  end.

Fixpoint lstrip (s : string) : string :=
  match s with
  | EmptyString => EmptyString
  | String c s' => if isspace c then lstrip s' else s
  end.

Fixpoint rstrip (s : string) : string :=
  match s with
  | EmptyString => EmptyString
  | String c s' =>
      match rstrip s' with
      | EmptyString => if isspace c then EmptyString else String c EmptyString
      | r => String c r
      end
  end.

Definition strip (s : string) : string := rstrip (lstrip s).

Fixpoint all_space (s : string) : bool :=
  match s with
  | EmptyString => true
  | String c s' => isspace c && all_space s'
  end.

(** Number of conversion specifiers of a format string; the format
    strings of this module hold no escaped percent sign. *)
Fixpoint count_specs (s : string) : nat :=
  match s with
  | EmptyString => 0
  | String c s' => (if Ascii.eqb c "%"%char then 1 else 0) + count_specs s'
  end.

End PyStr.

(** ** Built-in operations on values *)

Module Py.

(** [bool(v)] *)
Definition truthy (v : pyobj) : bool :=
  match v with
  | PNone => false
  | PInt z => negb (Z.eqb z 0)
  | PStr s => negb (String.eqb s "")
  | PList xs | PTuple xs => negb (Nat.eqb (length xs) 0)
  | PDict kvs => negb (Nat.eqb (length kvs) 0)
  | PFunc _ => true
  end.

(** [isinstance(v, list) or isinstance(v, tuple)] *)
Definition is_list_or_tuple (v : pyobj) : bool :=
  match v with PList _ | PTuple _ => true | _ => false end.

(** [v == s] for a string literal [s] *)
Definition eq_str (v : pyobj) (s : string) : bool :=
  match v with PStr t => String.eqb t s | _ => false end.

(** [len(v)] *)
Definition len (v : pyobj) : result nat :=
  match v with
  | PStr s => Ok (String.length s)
  | PList xs | PTuple xs => Ok (length xs)
  | PDict kvs => Ok (length kvs)
  | _ => Raise TypeError
  end.

(** [v[0]]; a dictionary of this model has string keys only, so the key
    [0] is never in it. *)
Definition getitem0 (v : pyobj) : result pyobj :=
  match v with
  | PStr (String c _) => Ok (PStr (String c EmptyString))
  | PList (x :: _) | PTuple (x :: _) => Ok x
  | PStr EmptyString | PList [] | PTuple [] => Raise IndexError
  | PDict _ => Raise KeyError
  | _ => Raise TypeError
  end.

(** [v[1:]] *)
Definition slice_from1 (v : pyobj) : result pyobj :=
  match v with
  | PStr (String _ s) => Ok (PStr s)
  | PStr EmptyString => Ok (PStr EmptyString)
  | PList xs => Ok (PList (tail xs))
  | PTuple xs => Ok (PTuple (tail xs))
  | _ => Raise TypeError
  end.

Fixpoint chars (s : string) : list pyobj :=
  match s with
  | EmptyString => []
  | String c s' => PStr (String c EmptyString) :: chars s'
  end.

(** [iter(v)], run to its end *)
Definition iter (v : pyobj) : result (list pyobj) :=
  match v with
  | PStr s => Ok (chars s)
  | PList xs | PTuple xs => Ok xs
  | PDict kvs => Ok (map (fun kv => PStr (fst kv)) kvs)
  | _ => Raise TypeError
  end.

(** [a, b, c, d = v]: [ValueError] unless [v] yields four items *)
Definition unpack4 (v : pyobj) : result (pyobj * pyobj * pyobj * pyobj) :=
  match iter v with
  | Ok [a; b; c; d] => Ok (a, b, c, d)
  | Ok _ => Raise ValueError
  | Raise e => Raise e
  end.

(** [hash(v)] succeeds *)
Fixpoint hashable (v : pyobj) : bool :=
  match v with
  | PList _ | PDict _ => false
  | PTuple xs => forallb hashable xs
  | _ => true
  end.

(** [v in d] for a dictionary [d] with string keys: [v] is hashed, then
    compared with the keys, and only a string equals a string. *)
Definition dict_contains {V} (v : pyobj) (d : gmap string V) : result bool :=
  if hashable v then
    Ok (match v with
        | PStr s => match d !! s with Some _ => true | None => false end
        | _ => false
        end)
  else Raise TypeError.

(** [fmt % v]: the arguments of the conversion. A tuple gives one argument
    per item, anything else is the single argument; a wrong number of
    arguments is a [TypeError], but for a list or a dictionary, which
    may be left unused as a mapping would. *)
Definition format_args (fmt : string) (v : pyobj) : result (list pyobj) :=
  let n := PyStr.count_specs fmt in
  match v with
  | PTuple xs => if Nat.eqb (length xs) n then Ok xs else Raise TypeError
  | PList _ | PDict _ => if Nat.leb n 1 then Ok [v] else Raise TypeError
  | _ => if Nat.eqb n 1 then Ok [v] else Raise TypeError
  end.

End Py.

(** ** The world and the trace *)

Inductive level : Type := DEBUG | INFO | WARN | ERROR | EXCEPTION.

Inductive zmq_op : Type :=
  | ZContext                        (* zmq.Context() *)
  | ZSocketPush                     (* context.socket(zmq.PUSH) *)
  | ZConnect (uri : string)         (* outgoing.connect(uri) *)
  | ZSendMultipart (msg : pyobj)    (* outgoing.send_multipart(msg) *)
  | ZClose                          (* outgoing.close() *)
  | ZTerm.                          (* context.term() *)

(** What the trace records. A log entry keeps the format string and the
    arguments it was given. *)
Inductive event : Type :=
  | ELog (lvl : level) (fmt : string) (args : list pyobj)
  | ECall (f : nat) (args : list pyobj)
  | EZmq (op : zmq_op).

(** The fields of a [Register] and of its [Transceiver] that the methods
    below read or write, and the trace. *)
Record world : Type := World {
  endpoint_uuid : string;
  outgoing_uri : string;
  _subscriptions : gmap string (list pyobj);
  trace : list event
}.

Definition record_event (e : event) (w : world) : world :=
  World (endpoint_uuid w) (outgoing_uri w) (_subscriptions w) (trace w ++ [e]).

Definition set_subscriptions (d : gmap string (list pyobj)) (w : world) : world :=
  World (endpoint_uuid w) (outgoing_uri w) d (trace w).

(** ** Computations that may raise *)

Definition M (A : Type) : Type := world -> result A * world.

Definition ret {A} (a : A) : M A := fun w => (Ok a, w).

Definition raise {A} (e : exn) : M A := fun w => (Raise e, w).

Definition bind {A B} (c : M A) (k : A -> M B) : M B :=
  fun w =>
    match c w with
    | (Ok a, w') => k a w'
    | (Raise e, w') => (Raise e, w')
    end.

Declare Scope py_scope.
Delimit Scope py_scope with py.
Bind Scope py_scope with M.
Notation "x <- c ;; k" := (bind c (fun x => k))
  (at level 100, c at next level, k at level 200, right associativity) : py_scope.
Notation "c ;; k" := (bind c (fun _ => k))
  (at level 100, k at level 200, right associativity) : py_scope.
Local Open Scope py_scope.

Definition lift {A} (r : result A) : M A := fun w => (r, w).

Definition gets {A} (proj : world -> A) : M A := fun w => (Ok (proj w), w).

Definition emit (e : event) : M unit := fun w => (Ok tt, record_event e w).

(** [try: body / except: handler] with a bare [except], which catches every
    exception. *)
Definition try_except {A} (body : M A) (handler : exn -> M A) : M A :=
  fun w =>
    match body w with
    | (Ok a, w') => (Ok a, w')
    | (Raise e, w') => handler e w'
    end.

(** [try: body / except IndexError: handler] *)
Definition try_except_IndexError {A} (body : M A) (handler : M A) : M A :=
  fun w =>
    match body w with
    | (Raise IndexError, w') => handler w'
    | r => r
    end.

(** [try: body / finally: cleanup]: the cleanup runs either way; the
    exception of the body is raised again after it, unless the cleanup
    raises one of its own. *)
Definition try_finally {A} (body : M A) (cleanup : M unit) : M A :=
  fun w =>
    match body w with
    | (r, w1) =>
        match cleanup w1 with
        | (Ok _, w2) => (r, w2)
        | (Raise e, w2) => (Raise e, w2)
        end
    end.

(** [for x in xs: body x] *)
Fixpoint for_each {A} (xs : list A) (body : A -> M unit) : M unit :=
  match xs with
  | [] => ret tt
  | x :: xs' => body x ;; for_each xs' body
  end.

(** [self.log.<lvl>(fmt)] *)
Definition log (lvl : level) (fmt : string) : M unit := emit (ELog lvl fmt []).

(** [self.log.<lvl>(fmt % v)]: the message is formatted first. *)
Definition log_fmt (lvl : level) (fmt : string) (v : pyobj) : M unit :=
  args <- lift (Py.format_args fmt v) ;;
  emit (ELog lvl fmt args).

(** [self.log.<lvl>(fmt % str(v))]: [str(v)] is a string, so it is the one
    argument whatever [v] is; the entry keeps [v] itself. *)
Definition log_str (lvl : level) (fmt : string) (v : pyobj) : M unit :=
  emit (ELog lvl fmt [v]).

(** ** frames *)

Module Frames.
Section Frames.

(** [json.dumps]: the text of a value, [None] when it has none. *)
Variable json_dumps : pyobj -> option string.

(** Modelled from the spec: [frames.sync_message] is not among the sources.
    "encodeSync() -> a one-field frame ["SYNC"]". *)
Definition sync_message : pyobj := PList [PStr "SYNC"].

(** Modelled from the spec: [frames.dispatch_message] is not among the
    sources. "encodeDispatch(originId, signal, data, replyTo) ->
    ["DISPATCH", originId, signal, jsonEncode(data), replyTo or "0"]". *)
Definition dispatch_message (endpoint_id signal data reply_to : pyobj)
  : result pyobj :=
  match json_dumps data with
  | Some j =>
      Ok (PList [PStr "DISPATCH"; endpoint_id; signal; PStr j;
                 if Py.truthy reply_to then reply_to else PStr "0"])
  | None => Raise TypeError
  end.

End Frames.
End Frames.

(** ** Transceiver *)

Module Transceiver.
Section Transceiver.

(** What the outside does: whether the callback call or the ZeroMQ
    operation [e], coming after the history [h], raises, and what. *)
Variable raises : list event -> event -> option exn.

(** [config.get("outgoing", 'tcp://localhost:15567')] of [__init__] *)
Definition outgoing_uri_of (config : gmap string string) : string :=
  default "tcp://localhost:15567" (config !! "outgoing").

(** An operation of the outside: it is recorded, then it returns or
    raises. *)
Definition perform (e : event) : M unit :=
  fun w =>
    match raises (trace w) e with
    | Some x => (Raise x, record_event e w)
    | None => (Ok tt, record_event e w)
    end.

Definition message_out (message : pyobj) : M unit :=
  if Py.is_list_or_tuple message then
    perform (EZmq ZContext) ;;
    perform (EZmq ZSocketPush) ;;
    try_finally
      (uri <- gets outgoing_uri ;;
       perform (EZmq (ZConnect uri)) ;;
       perform (EZmq (ZSendMultipart Frames.sync_message)) ;;
       perform (EZmq (ZSendMultipart message)))
      (perform (EZmq ZClose) ;;
       perform (EZmq ZTerm))
  else
    raise MessageOutError.

(** [self.message_handler] is the argument [message_handler]: [None], or
    the handler given to the constructor. *)
Definition message_in (message_handler : option (pyobj -> M unit))
    (message : pyobj) : M unit :=
  match message_handler with
  | Some handler =>
      try_except
        (log_str DEBUG "message_in: message <%s>" message ;;
         handler message)
        (fun _ => log EXCEPTION "message_in: Error handling received message - ")
  | None => log_str DEBUG "message_in: message <%s>" message
  end.

End Transceiver.
End Transceiver.

(** ** Register *)

Module Register.
Section Register.

Variable raises : list event -> event -> option exn.

(** [json.loads] on a string: the decoded value, [None] when the text is
    not JSON. *)
Variable json_loads : string -> option pyobj.

Variable json_dumps : pyobj -> option string.

(** [__init__], that makes its own transceiver from [config]: [uuid] is
    what [str(uuid.uuid4())] gave, the table is empty. *)
Definition init (uuid : string) (config : gmap string string) : world :=
  World uuid (Transceiver.outgoing_uri_of config) ∅ [].

(** [json.loads(v)] *)
Definition py_json_loads (v : pyobj) : result pyobj :=
  match v with
  | PStr s =>
      match json_loads s with
      | Some d => Ok d
      | None => Raise ValueError
      end
  | _ => Raise TypeError
  end.

(** [callee(a, b, c)]: only a function can be called. *)
Definition call (callee : pyobj) (args : list pyobj) : M unit :=
  match callee with
  | PFunc f => Transceiver.perform raises (ECall f args)
  | _ => raise TypeError
  end.

Definition validate_signal (signal : pyobj) : result string :=
  match signal with
  | PStr s =>
      let signal := PyStr.upper (PyStr.strip s) in
      if String.eqb signal "" then Raise ValueError else Ok signal
  | _ => Raise ValueError
  end.

Definition handle_dispath_message (endpoint_uuid signal data reply_to : pyobj)
  : M unit :=
  signal <- lift (validate_signal signal) ;;
  subscriptions <- gets _subscriptions ;;
  match subscriptions !! signal with
  | Some subscribers =>
      for_each subscribers (fun signal_subscriber =>
        try_except
          (call signal_subscriber
             [endpoint_uuid; data;
              if negb (Py.eq_str reply_to "0") then reply_to else PNone])
          (fun _ =>
             log_fmt EXCEPTION
               "handle_dispath_message: the callback <%s> for signal <%s> has errored - "
               (PTuple [signal_subscriber; PStr signal])))
  | None => ret tt
  end.

Definition handle_hub_present_message (payload : pyobj) : M unit := ret tt.

(** [command.strip().lower()] when [command] is a non-empty string *)
Definition normalise_command (command : pyobj) : pyobj :=
  match command with
  | PStr s =>
      if Py.truthy command then PStr (PyStr.lower (PyStr.strip s)) else command
  | _ => command
  end.

Definition message_handler (message : pyobj) : M unit :=
  fields_present <- lift (Py.len message) ;;
  if Nat.ltb 0 fields_present then
    command <- lift (Py.getitem0 message) ;;
    let command := normalise_command command in
    command_args <-
      (if Nat.ltb 1 fields_present then lift (Py.slice_from1 message)
       else ret (PList [])) ;;
    if Py.eq_str command "dispatch" then
      try_except_IndexError
        (fields <- lift (Py.unpack4 command_args) ;;
         let '(endpoint_uuid, signal, data, reply_to) := fields in
         data <- lift (py_json_loads data) ;;
         handle_dispath_message endpoint_uuid signal data reply_to)
        (log ERROR "message_handler: invalid amount of fields given to ")
    else if Py.eq_str command "hub_present" then
      try_except_IndexError
        (arg0 <- lift (Py.getitem0 command_args) ;;
         data <- lift (py_json_loads arg0) ;;
         handle_hub_present_message data)
        (log ERROR "message_handler: no version data found in hub present message!")
    else if Py.eq_str command "sync" then
      ret tt
    else
      log_fmt ERROR "message_handler: unknown command <%s> no action taken." command
  else
    log_fmt ERROR "message_handler: invalid message <%s>" message.

Definition subscribe (signal callback : pyobj) : M unit :=
  signal <- lift (validate_signal signal) ;;
  subscriptions <- gets _subscriptions ;;
  (match subscriptions !! signal with
   | None => fun w => (Ok tt, set_subscriptions (<[signal := []]> subscriptions) w)
   | Some _ => ret tt
   end) ;;
  subscriptions <- gets _subscriptions ;;
  present <- lift (Py.dict_contains callback subscriptions) ;;
  if negb present then
    fun w =>
      (Ok tt,
       set_subscriptions
         (alter (fun subscribers => subscribers ++ [callback]) signal subscriptions) w)
  else
    log_str WARN
      "subscribe: The callback<%s> is already subscribed. Ignoring request."
      callback.

Definition unsubscribe (signal callback : pyobj) : M unit := ret tt.

Definition publish (signal data : pyobj) : M unit :=
  uuid <- gets endpoint_uuid ;;
  dispatch_message <-
    lift (Frames.dispatch_message json_dumps (PStr uuid) signal data PNone) ;;
  Transceiver.message_out raises dispatch_message.

End Register.
End Register.

(** ** Reading a trace *)

Definition add_events (evs : list event) (w : world) : world :=
  World (endpoint_uuid w) (outgoing_uri w) (_subscriptions w) (trace w ++ evs).

Definition is_call (e : event) : bool :=
  match e with ECall _ _ => true | _ => false end.

Definition is_zmq (e : event) : bool :=
  match e with EZmq _ => true | _ => false end.

(** The callback calls of a trace, in order. *)
Definition calls (evs : list event) : list event := List.filter is_call evs.

(** One call with the arguments [args] for each function of [subscribers],
    in order. *)
Fixpoint invocations (args : list pyobj) (subscribers : list pyobj) : list event :=
  match subscribers with
  | [] => []
  | PFunc f :: rest => ECall f args :: invocations args rest
  | _ :: rest => invocations args rest
  end.

(** The entry [handle_dispath_message] logs when a subscriber failed. *)
Definition errored_entry (signal : string) (subscriber : pyobj) : event :=
  ELog EXCEPTION
    "handle_dispath_message: the callback <%s> for signal <%s> has errored - "
    [subscriber; PStr signal].

(** What one subscriber adds to the trace when it is notified after the
    history [h]: its call when it is a function, and the entry for its
    failure when it raised or could not be called. *)
Definition notify_events (raises : list event -> event -> option exn)
    (signal : string) (args : list pyobj) (h : list event) (subscriber : pyobj)
  : list event :=
  match subscriber with
  | PFunc f =>
      ECall f args ::
        match raises h (ECall f args) with
        | Some _ => [errored_entry signal subscriber]
        | None => []
        end
  | _ => [errored_entry signal subscriber]
  end.

Fixpoint dispatch_events (raises : list event -> event -> option exn)
    (signal : string) (args : list pyobj) (h : list event)
    (subscribers : list pyobj) : list event :=
  match subscribers with
  | [] => []
  | subscriber :: rest =>
      let evs := notify_events raises signal args h subscriber in
      evs ++ dispatch_events raises signal args (h ++ evs) rest
  end.

(** The third argument of a callback: the reply-to field, or [None] for
    the string "0". *)
Definition reply_argument (reply_to : pyobj) : pyobj :=
  match reply_to with
  | PStr "0" => PNone
  | _ => reply_to
  end.

(** The entries [message_in] logs: the frame it received, and that the
    handler failed. *)
Definition received_entry (message : pyobj) : event :=
  ELog DEBUG "message_in: message <%s>" [message].

Definition handler_error_entry : event :=
  ELog EXCEPTION "message_in: Error handling received message - " [].

(** What [send] puts on the wire for the message [m], start to end. *)
Definition send_sequence (uri : string) (m : pyobj) : list event :=
  [EZmq ZContext; EZmq ZSocketPush; EZmq (ZConnect uri);
   EZmq (ZSendMultipart Frames.sync_message); EZmq (ZSendMultipart m);
   EZmq ZClose; EZmq ZTerm].

(** ** Signals that differ in case and surrounding whitespace *)

(** The same character, or the two cases of one letter. *)
Definition same_letter (a b : ascii) : Prop :=
  a = b
  \/ (PyStr.isupper a = true /\ nat_of_ascii b = nat_of_ascii a + 32)
  \/ (PyStr.isupper b = true /\ nat_of_ascii a = nat_of_ascii b + 32).

Inductive same_letters : string -> string -> Prop :=
  | same_letters_nil : same_letters EmptyString EmptyString
  | same_letters_cons a b s t :
      same_letter a b -> same_letters s t ->
      same_letters (String a s) (String b t).

(** [s1] and [s2] are one text up to the case of its letters, each written
    between two runs of whitespace. *)
Definition differ_in_case_and_padding (s1 s2 : string) : Prop :=
  exists l1 c1 r1 l2 c2 r2,
    s1 = l1 +:+ c1 +:+ r1 /\ s2 = l2 +:+ c2 +:+ r2 /\
    PyStr.all_space l1 = true /\ PyStr.all_space r1 = true /\
    PyStr.all_space l2 = true /\ PyStr.all_space r2 = true /\
    same_letters c1 c2.

(** ** A small environment to run the methods in *)

Module Demo.

(** Nothing outside raises. *)
Definition quiet : list event -> event -> option exn := fun _ _ => None.

(** The callback 2 raises, nothing else does. *)
Definition second_fails : list event -> event -> option exn :=
  fun _ e =>
    match e with
    | ECall 2 _ => Some (UserError "boom")
    | _ => None
    end.

(** A decoder and an encoder that know the empty object only. *)
Definition loads (s : string) : option pyobj :=
  if String.eqb s "{}" then Some (PDict []) else None.

Definition dumps (v : pyobj) : option string :=
  match v with PDict [] => Some "{}" | _ => None end.

Definition fresh : world := Register.init "7d9c2a" ∅.

Definition three_subscribers : world :=
  World "7d9c2a" "tcp://localhost:15567"
    {[ "TEA_TIME" := [PFunc 1; PFunc 2; PFunc 3] ]} [].

End Demo.

(** ** Computations of the inbound path *)



(** ** Outsides that fail *)

Module Faults.

(** The creation of the socket raises. *)
Definition no_socket : list event -> event -> option exn :=
  fun _ e =>
    match e with
    | EZmq ZSocketPush => Some ZMQError
    | _ => None
    end.

(** The hub cannot be reached: [connect] raises. *)
Definition no_hub : list event -> event -> option exn :=
  fun _ e =>
    match e with
    | EZmq (ZConnect _) => Some ZMQError
    | _ => None
    end.

(** Sending the SYNC frame raises. *)
Definition no_sync : list event -> event -> option exn :=
  fun _ e =>
    match e with
    | EZmq (ZSendMultipart (PList [PStr "SYNC"])) => Some ZMQError
    | _ => None
    end.

(** Closing the socket raises. *)
Definition no_close : list event -> event -> option exn :=
  fun _ e =>
    match e with
    | EZmq ZClose => Some ZMQError
    | _ => None
    end.

End Faults.

(** * Properties *)

Example strip_upper_tea : PyStr.upper (PyStr.strip " tea_time ") = "TEA_TIME".
Proof. reflexivity. Qed.

Example lower_strip_dispatch : PyStr.lower (PyStr.strip "DISPATCH ") = "dispatch".
Proof. reflexivity. Qed.

(** ** The world and the trace *)

Lemma add_events_nil w : add_events [] w = w.
Proof. destruct w; unfold add_events; simpl. by rewrite app_nil_r. Qed.

Lemma add_events_app evs1 evs2 w :
  add_events evs2 (add_events evs1 w) = add_events (evs1 ++ evs2) w.
Proof. unfold add_events; simpl. by rewrite app_assoc. Qed.

Lemma record_event_add e w : record_event e w = add_events [e] w.
Proof. reflexivity. Qed.

Lemma calls_app evs1 evs2 : calls (evs1 ++ evs2) = calls evs1 ++ calls evs2.
Proof. apply List.filter_app. Qed.

(** ** Transceiver.message_out *)

Section TransceiverFacts.

Variable raises : list event -> event -> option exn.

Lemma perform_ok e w w' :
  Transceiver.perform raises e w = (Ok tt, w') ->
  raises (trace w) e = None /\ w' = record_event e w.
Proof.
  unfold Transceiver.perform.
  destruct (raises _ _); intros H; by inversion H.
Qed.

Lemma perform_quiet e w :
  raises (trace w) e = None ->
  Transceiver.perform raises e w = (Ok tt, record_event e w).
Proof. unfold Transceiver.perform. by intros ->. Qed.

(** C5: [send] of something that is neither a list nor a tuple raises
    [MessageOutError] and leaves the world as it was: nothing was opened,
    nothing was sent. *)
Theorem message_out_rejects_non_sequence x w :
  Py.is_list_or_tuple x = false ->
  Transceiver.message_out raises x w = (Raise MessageOutError, w)
  /\ List.filter is_zmq (trace (snd (Transceiver.message_out raises x w)))
     = List.filter is_zmq (trace w).
Proof.
  intros Hx. unfold Transceiver.message_out. rewrite Hx. by split.
Qed.

(** When a [send] returns, each of its seven operations went through. *)
Lemma message_out_ok_inv m w w' :
  Py.is_list_or_tuple m = true ->
  Transceiver.message_out raises m w = (Ok tt, w') ->
  w' = add_events (send_sequence (outgoing_uri w) m) w.
Proof.
  intros Hm. unfold Transceiver.message_out. rewrite Hm.
  unfold bind, try_finally, gets.
  destruct (Transceiver.perform raises (EZmq ZContext) w)
    as [[[]|e1] w1] eqn:E1; [|discriminate].
  apply perform_ok in E1 as [_ ->].
  destruct (Transceiver.perform raises (EZmq ZSocketPush) _)
    as [[[]|e2] w2] eqn:E2; [|discriminate].
  apply perform_ok in E2 as [_ ->].
  destruct (Transceiver.perform raises (EZmq (ZConnect _)) _)
    as [[[]|e3] w3] eqn:E3.
  2:{ repeat (destruct (Transceiver.perform raises _ _) as [[[]|?] ?]);
      discriminate. }
  apply perform_ok in E3 as [_ ->].
  destruct (Transceiver.perform raises (EZmq (ZSendMultipart Frames.sync_message)) _)
    as [[[]|e4] w4] eqn:E4.
  2:{ repeat (destruct (Transceiver.perform raises _ _) as [[[]|?] ?]);
      discriminate. }
  apply perform_ok in E4 as [_ ->].
  destruct (Transceiver.perform raises (EZmq (ZSendMultipart m)) _)
    as [[[]|e5] w5] eqn:E5.
  2:{ repeat (destruct (Transceiver.perform raises _ _) as [[[]|?] ?]);
      discriminate. }
  apply perform_ok in E5 as [_ ->].
  destruct (Transceiver.perform raises (EZmq ZClose) _)
    as [[[]|e6] w6] eqn:E6; [|discriminate].
  apply perform_ok in E6 as [_ ->].
  destruct (Transceiver.perform raises (EZmq ZTerm) _)
    as [[[]|e7] w7] eqn:E7; [|discriminate].
  apply perform_ok in E7 as [_ ->].
  intros [= <-]. unfold add_events, record_event, send_sequence; simpl.
  by rewrite <- !app_assoc.
Qed.

(** When no ZeroMQ operation raises, [send] returns. *)
Lemma message_out_quiet m w :
  Py.is_list_or_tuple m = true ->
  (forall h op, raises h (EZmq op) = None) ->
  Transceiver.message_out raises m w
  = (Ok tt, add_events (send_sequence (outgoing_uri w) m) w).
Proof.
  intros Hm Hq. unfold Transceiver.message_out. rewrite Hm.
  unfold bind, try_finally, gets.
  rewrite !perform_quiet by apply Hq.
  unfold add_events, record_event, send_sequence; simpl.
  by rewrite <- !app_assoc.
Qed.

(** C9: a [send] of a list or tuple that returns has added to the trace,
    in this order and with nothing in between: the context, the PUSH
    socket, the connection to the outgoing address, the SYNC frame, the
    message, the close of the socket and the end of the context. And it
    does return when no ZeroMQ operation raises. *)
Theorem message_out_sync_then_message m w :
  Py.is_list_or_tuple m = true ->
  (forall w',
      Transceiver.message_out raises m w = (Ok tt, w') ->
      trace w' = trace w ++ send_sequence (outgoing_uri w) m
      /\ _subscriptions w' = _subscriptions w)
  /\ ((forall h op, raises h (EZmq op) = None) ->
      exists w', Transceiver.message_out raises m w = (Ok tt, w')).
Proof.
  intros Hm. split.
  - intros w' Hw'. by rewrite (message_out_ok_inv m w w' Hm Hw').
  - intros Hq. eexists. by apply message_out_quiet.
Qed.

End TransceiverFacts.

(** ** Transceiver.message_in *)

Section MessageInFacts.

Variable handler : pyobj -> M unit.

Lemma message_in_unfold message w :
  Transceiver.message_in (Some handler) message w =
    match handler message (record_event (received_entry message) w) with
    | (Ok _, w') => (Ok tt, w')
    | (Raise _, w') => (Ok tt, record_event handler_error_entry w')
    end.
Proof.
  unfold Transceiver.message_in, try_except, bind, log_str, log, emit.
  fold (received_entry message).
  by destruct (handler message _) as [[[]|e] w'].
Qed.

(** C7: on a frame, [message_in] logs it and calls the handler with the
    frame as it came; when the handler returns, that is all, and when the
    handler raises, the exception is logged and dropped. Either way
    [message_in] returns, and so does a run of it over any number of
    frames. *)
Theorem message_in_contains_handler_errors message w :
  (forall w', handler message (record_event (received_entry message) w) = (Ok tt, w') ->
      Transceiver.message_in (Some handler) message w = (Ok tt, w'))
  /\ (forall e w', handler message (record_event (received_entry message) w) = (Raise e, w') ->
      Transceiver.message_in (Some handler) message w
      = (Ok tt, record_event handler_error_entry w'))
  /\ (exists w', Transceiver.message_in (Some handler) message w = (Ok tt, w'))
  /\ (forall frames, exists w',
        for_each frames (Transceiver.message_in (Some handler)) w = (Ok tt, w')).
Proof.
  split; [|split; [|split]].
  - intros w' H. by rewrite message_in_unfold, H.
  - intros e w' H. by rewrite message_in_unfold, H.
  - rewrite message_in_unfold.
    destruct (handler message _) as [[[]|e] w']; eauto.
  - intros frames. revert w.
    induction frames as [|m frames IH]; intros w0; cbn [for_each].
    + by exists w0.
    + unfold bind. rewrite message_in_unfold.
      destruct (handler m _) as [[[]|e] w']; apply IH.
Qed.

End MessageInFacts.

(** ** Register: dispatch to the subscribers *)

Section DispatchFacts.

Variable raises : list event -> event -> option exn.
Variable json_loads : string -> option pyobj.

Lemma eq_str_true v s : Py.eq_str v s = true <-> v = PStr s.
Proof.
  destruct v; simpl; try (split; [discriminate | by intros [=]]).
  rewrite String.eqb_eq. split; [by intros -> | by intros [=]].
Qed.

Lemma reply_argument_eq reply_to :
  (if negb (Py.eq_str reply_to "0") then reply_to else PNone)
  = reply_argument reply_to.
Proof.
  destruct (Py.eq_str reply_to "0") eqn:E; simpl.
  - apply eq_str_true in E as ->. reflexivity.
  - destruct reply_to as [| |s| | | |]; try reflexivity.
    simpl in E. apply String.eqb_neq in E.
    unfold reply_argument.
    destruct s as [|[[] [] [] [] [] [] [] []] [|]]; try reflexivity.
    by destruct E.
Qed.

Lemma reply_argument_other reply_to :
  reply_to <> PStr "0" -> reply_argument reply_to = reply_to.
Proof.
  intros Hne. rewrite <- reply_argument_eq.
  destruct (Py.eq_str reply_to "0") eqn:E; [|reflexivity].
  by apply eq_str_true in E.
Qed.

(** The loop over the subscribers never raises and adds exactly
    [dispatch_events]. *)
Lemma for_each_notify signal args subscribers w :
  for_each subscribers (fun signal_subscriber =>
    try_except
      (Register.call raises signal_subscriber args)
      (fun _ =>
         log_fmt EXCEPTION
           "handle_dispath_message: the callback <%s> for signal <%s> has errored - "
           (PTuple [signal_subscriber; PStr signal]))) w
  = (Ok tt, add_events (dispatch_events raises signal args (trace w) subscribers) w).
Proof.
  revert w. induction subscribers as [|cb rest IH]; intros w; cbn [for_each].
  - by rewrite add_events_nil.
  - unfold bind at 1.
    assert (Hlog : forall w0,
      log_fmt EXCEPTION
        "handle_dispath_message: the callback <%s> for signal <%s> has errored - "
        (PTuple [cb; PStr signal]) w0
      = (Ok tt, record_event (errored_entry signal cb) w0)) by reflexivity.
    assert (Hstep :
      try_except (Register.call raises cb args)
        (fun _ =>
           log_fmt EXCEPTION
             "handle_dispath_message: the callback <%s> for signal <%s> has errored - "
             (PTuple [cb; PStr signal])) w
      = (Ok tt, add_events (notify_events raises signal args (trace w) cb) w)).
    { unfold try_except, Register.call, notify_events.
      destruct cb as [| | | | | |f];
        try (unfold raise; rewrite Hlog; reflexivity).
      unfold Transceiver.perform.
      destruct (raises (trace w) (ECall f args)) as [e|].
      - rewrite Hlog. rewrite !record_event_add, add_events_app. reflexivity.
      - reflexivity. }
    rewrite Hstep, IH, add_events_app. reflexivity.
Qed.

Lemma calls_notify_events signal args h cb :
  calls (notify_events raises signal args h cb) = invocations args [cb].
Proof.
  destruct cb; try reflexivity.
  unfold notify_events. by destruct (raises _ _).
Qed.

Lemma invocations_cons args cb rest :
  invocations args (cb :: rest) = invocations args [cb] ++ invocations args rest.
Proof. by destruct cb. Qed.

(** Whatever raises, every function among the subscribers is called,
    once, in the order of the list. *)
Lemma calls_dispatch_events signal args h subscribers :
  calls (dispatch_events raises signal args h subscribers)
  = invocations args subscribers.
Proof.
  revert h. induction subscribers as [|cb rest IH]; intros h; [reflexivity|].
  cbn [dispatch_events]. cbv zeta.
  by rewrite calls_app, calls_notify_events, IH, <- invocations_cons.
Qed.

(** A call that raised is followed at once by the entry for its failure. *)
Lemma dispatch_events_failure_logged signal args subscribers :
  forall h pre f a post,
    dispatch_events raises signal args h subscribers = pre ++ ECall f a :: post ->
    is_Some (raises (h ++ pre) (ECall f a)) ->
    exists post', post = errored_entry signal (PFunc f) :: post'.
Proof.
  induction subscribers as [|cb rest IH]; intros h pre f a post Heq Hr.
  - by destruct pre.
  - cbn [dispatch_events] in Heq. cbv zeta in Heq.
    destruct cb as [| | | | | |g];
      try (destruct pre as [|x pre]; [discriminate|];
           injection Heq as <- Heq;
           apply (IH _ _ _ _ _ Heq);
           by rewrite <- app_assoc).
    unfold notify_events in Heq.
    destruct pre as [|x pre].
    + rewrite app_nil_r in Hr. injection Heq as -> -> Heq.
      destruct Hr as [e He]. rewrite He in Heq. eauto.
    + injection Heq as <- Heq.
      destruct (raises h (ECall g args)) as [e|] eqn:Eg.
      * destruct pre as [|y pre]; [discriminate|].
        injection Heq as <- Heq.
        apply (IH _ _ _ _ _ Heq).
        by rewrite <- app_assoc.
      * apply (IH _ _ _ _ _ Heq).
        by rewrite <- app_assoc.
Qed.

Lemma handle_dispath_message_subscribed endpoint_uuid signal data reply_to k subscribers w :
  Register.validate_signal signal = Ok k ->
  _subscriptions w !! k = Some subscribers ->
  Register.handle_dispath_message raises endpoint_uuid signal data reply_to w
  = (Ok tt,
     add_events
       (dispatch_events raises k [endpoint_uuid; data; reply_argument reply_to]
          (trace w) subscribers) w).
Proof.
  intros Hk Hs. unfold Register.handle_dispath_message, bind, lift, gets.
  rewrite Hk, Hs, reply_argument_eq. apply for_each_notify.
Qed.

Lemma handle_dispath_message_unsubscribed endpoint_uuid signal data reply_to k w :
  Register.validate_signal signal = Ok k ->
  _subscriptions w !! k = None ->
  Register.handle_dispath_message raises endpoint_uuid signal data reply_to w
  = (Ok tt, w).
Proof.
  intros Hk Hs. unfold Register.handle_dispath_message, bind, lift, gets.
  by rewrite Hk, Hs.
Qed.

Lemma validate_signal_raises signal e :
  Register.validate_signal signal = Raise e -> e = ValueError.
Proof.
  destruct signal; simpl; try by intros [=].
  destruct (String.eqb _ _); by intros [=].
Qed.

(** [handle_dispath_message] raises nothing but the [ValueError] of an
    invalid signal. *)
Lemma handle_dispath_message_raises endpoint_uuid signal data reply_to w e w' :
  Register.handle_dispath_message raises endpoint_uuid signal data reply_to w
  = (Raise e, w') ->
  e = ValueError /\ w' = w.
Proof.
  destruct (Register.validate_signal signal) as [k|e0] eqn:Hk.
  - destruct (_subscriptions w !! k) as [subscribers|] eqn:Hs.
    + by rewrite (handle_dispath_message_subscribed _ _ _ _ _ _ _ Hk Hs).
    + by rewrite (handle_dispath_message_unsubscribed _ _ _ _ _ _ Hk Hs).
  - unfold Register.handle_dispath_message, bind, lift. rewrite Hk.
    intros [= <- <-]. split; [|done]. by apply validate_signal_raises in Hk.
Qed.

(** A list or tuple of the five fields of a DISPATCH frame, the data being
    JSON, reaches [handle_dispath_message] with the decoded data. *)
Lemma message_handler_dispatch message command endpoint_uuid signal data reply_to d w :
  Py.is_list_or_tuple message = true ->
  Py.iter message = Ok [command; endpoint_uuid; signal; data; reply_to] ->
  Py.eq_str (Register.normalise_command command) "dispatch" = true ->
  Register.py_json_loads json_loads data = Ok d ->
  Register.message_handler raises json_loads message w
  = Register.handle_dispath_message raises endpoint_uuid signal d reply_to w.
Proof.
  intros Hm Hi Hc Hd.
  assert (Hgo :
    try_except_IndexError
      (Register.handle_dispath_message raises endpoint_uuid signal d reply_to)
      (log ERROR "message_handler: invalid amount of fields given to ") w
    = Register.handle_dispath_message raises endpoint_uuid signal d reply_to w).
  { unfold try_except_IndexError.
    destruct (Register.handle_dispath_message _ _ _ _ _ w) as [[[]|e] w'] eqn:E;
      [reflexivity|].
    by apply handle_dispath_message_raises in E as [-> ->]. }
  destruct message as [| | |xs|xs| |]; try discriminate;
    simpl in Hi; injection Hi as ->;
    unfold Register.message_handler, bind, lift; cbn [Py.len length Nat.ltb Nat.leb];
    cbn [Py.getitem0 Py.slice_from1 tail]; rewrite Hc;
    rewrite <- Hgo; unfold try_except_IndexError, bind, lift;
    cbn [Py.unpack4 Py.iter]; rewrite Hd; reflexivity.
Qed.

(** C8: when the signal of a dispatch has the subscribers [c1 .. cn], the
    handler returns whatever any of them does; the calls it made are one
    per function of the list, in the order of the list, so a failure of
    [ci] does not keep [c(i+1) .. cn] from being called; every call that
    raised is followed at once by the log entry of its failure; and the
    subscription table is left as it was for the frames that come after. *)
Theorem dispatch_isolates_subscriber_failures
    endpoint_uuid signal data reply_to k subscribers w :
  Register.validate_signal signal = Ok k ->
  _subscriptions w !! k = Some subscribers ->
  exists evs,
    Register.handle_dispath_message raises endpoint_uuid signal data reply_to w
    = (Ok tt, add_events evs w)
    /\ calls evs
       = invocations [endpoint_uuid; data; reply_argument reply_to] subscribers
    /\ (forall pre f a post,
          evs = pre ++ ECall f a :: post ->
          is_Some (raises (trace w ++ pre) (ECall f a)) ->
          exists post', post = errored_entry k (PFunc f) :: post')
    /\ _subscriptions (add_events evs w) = _subscriptions w.
Proof.
  intros Hk Hs. eexists. split; [|split; [|split]].
  - by apply handle_dispath_message_subscribed.
  - apply calls_dispatch_events.
  - apply dispatch_events_failure_logged.
  - reflexivity.
Qed.

(** C6: a DISPATCH frame whose reply-to field is the string "0" has every
    subscriber called with [None] as its third argument; with any other
    reply-to field the subscribers are called with that field itself. *)
Theorem dispatch_reply_to_sentinel
    message command endpoint_uuid signal data reply_to d k subscribers w :
  Py.is_list_or_tuple message = true ->
  Py.iter message = Ok [command; endpoint_uuid; signal; data; reply_to] ->
  Py.eq_str (Register.normalise_command command) "dispatch" = true ->
  Register.py_json_loads json_loads data = Ok d ->
  Register.validate_signal signal = Ok k ->
  _subscriptions w !! k = Some subscribers ->
  exists evs,
    Register.message_handler raises json_loads message w = (Ok tt, add_events evs w)
    /\ (reply_to = PStr "0" ->
        calls evs = invocations [endpoint_uuid; d; PNone] subscribers)
    /\ (reply_to <> PStr "0" ->
        calls evs = invocations [endpoint_uuid; d; reply_to] subscribers).
Proof.
  intros Hm Hi Hc Hd Hk Hs. eexists. split; [|split].
  - rewrite (message_handler_dispatch _ _ _ _ _ _ _ _ Hm Hi Hc Hd).
    by apply handle_dispath_message_subscribed.
  - intros ->. by rewrite calls_dispatch_events.
  - intros Hne. by rewrite calls_dispatch_events, reply_argument_other.
Qed.

End DispatchFacts.

(** ** Normalisation of signals *)

Section Normalisation.

Lemma same_letter_isspace a b :
  same_letter a b -> PyStr.isspace a = PyStr.isspace b.
Proof.
  intros [->|[[Hu Hn]|[Hu Hn]]]; [reflexivity| |].
  - rewrite <- (ascii_nat_embedding b), Hn.
    destruct a as [[] [] [] [] [] [] [] []]; try discriminate Hu; reflexivity.
  - rewrite <- (ascii_nat_embedding a), Hn.
    destruct b as [[] [] [] [] [] [] [] []]; try discriminate Hu; reflexivity.
Qed.

Lemma same_letter_upper a b :
  same_letter a b -> PyStr.upper_char a = PyStr.upper_char b.
Proof.
  intros [->|[[Hu Hn]|[Hu Hn]]]; [reflexivity| |].
  - rewrite <- (ascii_nat_embedding b), Hn.
    destruct a as [[] [] [] [] [] [] [] []]; try discriminate Hu; reflexivity.
  - rewrite <- (ascii_nat_embedding a), Hn.
    destruct b as [[] [] [] [] [] [] [] []]; try discriminate Hu; reflexivity.
Qed.

Lemma same_letters_upper s t :
  same_letters s t -> PyStr.upper s = PyStr.upper t.
Proof.
  induction 1 as [|a b s t Hab _ IH]; [reflexivity|].
  simpl. by rewrite (same_letter_upper a b Hab), IH.
Qed.

Lemma same_letters_lstrip s t :
  same_letters s t -> same_letters (PyStr.lstrip s) (PyStr.lstrip t).
Proof.
  induction 1 as [|a b s t Hab Hst IH]; [constructor|].
  simpl. rewrite <- (same_letter_isspace a b Hab).
  destruct (PyStr.isspace a); [exact IH | by constructor].
Qed.

Lemma same_letters_rstrip s t :
  same_letters s t -> same_letters (PyStr.rstrip s) (PyStr.rstrip t).
Proof.
  induction 1 as [|a b s t Hab Hst IH]; [constructor|].
  simpl. rewrite <- (same_letter_isspace a b Hab).
  destruct (PyStr.rstrip s) as [|a' s'], (PyStr.rstrip t) as [|b' t'];
    inversion IH; subst.
  - destruct (PyStr.isspace a);
      [constructor | constructor; [assumption | constructor]].
  - constructor; [assumption|]. by constructor.
Qed.

Lemma lstrip_all_space l : PyStr.all_space l = true -> PyStr.lstrip l = "".
Proof.
  induction l as [|c l IH]; [reflexivity|]. simpl.
  destruct (PyStr.isspace c); [exact IH | discriminate].
Qed.

Lemma rstrip_all_space r : PyStr.all_space r = true -> PyStr.rstrip r = "".
Proof.
  induction r as [|c r IH]; [reflexivity|]. simpl.
  destruct (PyStr.isspace c); [|discriminate].
  intros H. by rewrite (IH H).
Qed.

Lemma lstrip_app c r :
  PyStr.lstrip (c +:+ r)
  = if PyStr.all_space c then PyStr.lstrip r else PyStr.lstrip c +:+ r.
Proof.
  induction c as [|a c IH]; [reflexivity|]. simpl.
  destruct (PyStr.isspace a); [exact IH | reflexivity].
Qed.

Lemma rstrip_app_space s r :
  PyStr.all_space r = true -> PyStr.rstrip (s +:+ r) = PyStr.rstrip s.
Proof.
  intros Hr. induction s as [|a s IH]; simpl.
  - by apply rstrip_all_space.
  - by rewrite IH.
Qed.

(** Whitespace around a text does not show in its [strip]. *)
Lemma strip_padding l c r :
  PyStr.all_space l = true -> PyStr.all_space r = true ->
  PyStr.strip (l +:+ c +:+ r) = PyStr.strip c.
Proof.
  intros Hl Hr. unfold PyStr.strip.
  rewrite lstrip_app, Hl, lstrip_app.
  destruct (PyStr.all_space c) eqn:Hc.
  - by rewrite (lstrip_all_space r Hr), (lstrip_all_space c Hc).
  - by apply rstrip_app_space.
Qed.

(** Strings that differ in case and surrounding whitespace have one
    normal form. *)
Lemma normal_form_unique s1 s2 :
  differ_in_case_and_padding s1 s2 ->
  PyStr.upper (PyStr.strip s1) = PyStr.upper (PyStr.strip s2).
Proof.
  intros (l1 & c1 & r1 & l2 & c2 & r2 & -> & -> & Hl1 & Hr1 & Hl2 & Hr2 & Hc).
  rewrite !strip_padding by assumption.
  apply same_letters_upper. unfold PyStr.strip.
  by apply same_letters_rstrip, same_letters_lstrip.
Qed.

Lemma validate_signal_unique s1 s2 :
  differ_in_case_and_padding s1 s2 ->
  Register.validate_signal (PStr s1) = Register.validate_signal (PStr s2).
Proof.
  intros H. unfold Register.validate_signal.
  by rewrite (normal_form_unique s1 s2 H).
Qed.

End Normalisation.

(** ** Register.subscribe *)

Section SubscribeFacts.

Variable raises : list event -> event -> option exn.
Variable json_loads : string -> option pyobj.

(** What [subscribe] does with a function: the membership test looks the
    function up among the keys of the table, which are strings, so it
    never finds it, and the function is appended to the list of its
    signal. *)
Lemma subscribe_func signal k f w :
  Register.validate_signal signal = Ok k ->
  exists w',
    Register.subscribe signal (PFunc f) w = (Ok tt, w')
    /\ _subscriptions w' !! k
       = Some (default [] (_subscriptions w !! k) ++ [PFunc f])
    /\ (forall k', k' <> k -> _subscriptions w' !! k' = _subscriptions w !! k')
    /\ trace w' = trace w.
Proof.
  intros Hk. unfold Register.subscribe, bind, lift, gets, ret. rewrite Hk.
  destruct (_subscriptions w !! k) as [l|] eqn:Hl; cbn.
  - eexists. split; [reflexivity|]. cbn. split; [|split; [|reflexivity]].
    + by rewrite lookup_alter_eq, Hl.
    + intros k' Hne. by rewrite lookup_alter_ne.
  - eexists. split; [reflexivity|]. cbn. split; [|split; [|reflexivity]].
    + by rewrite lookup_alter_eq, lookup_insert_eq.
    + intros k' Hne. by rewrite lookup_alter_ne, lookup_insert_ne.
Qed.

Lemma invocations_app args l1 l2 :
  invocations args (l1 ++ l2) = invocations args l1 ++ invocations args l2.
Proof.
  induction l1 as [|cb l1 IH]; [reflexivity|].
  rewrite <- app_comm_cons, invocations_cons, IH, app_assoc.
  by rewrite <- invocations_cons.
Qed.

(** C4: when [s1] and [s2] differ in the case of their letters and in
    surrounding whitespace only, and [s1] is a valid signal, a function
    subscribed to [s1] is called on a DISPATCH frame that carries [s2]. *)
Theorem subscription_lookup_ignores_case_and_padding
    s1 s2 k f message command endpoint_uuid data reply_to d w :
  differ_in_case_and_padding s1 s2 ->
  Register.validate_signal (PStr s1) = Ok k ->
  Py.is_list_or_tuple message = true ->
  Py.iter message = Ok [command; endpoint_uuid; PStr s2; data; reply_to] ->
  Py.eq_str (Register.normalise_command command) "dispatch" = true ->
  Register.py_json_loads json_loads data = Ok d ->
  exists w1 evs,
    Register.subscribe (PStr s1) (PFunc f) w = (Ok tt, w1)
    /\ Register.message_handler raises json_loads message w1
       = (Ok tt, add_events evs w1)
    /\ In (ECall f [endpoint_uuid; d; reply_argument reply_to]) evs.
Proof.
  intros Hd Hk Hm Hi Hc Hj.
  destruct (subscribe_func (PStr s1) k f w Hk) as (w1 & Hsub & Hl & _ & _).
  assert (Hk2 : Register.validate_signal (PStr s2) = Ok k)
    by (by rewrite <- (validate_signal_unique s1 s2 Hd)).
  exists w1. eexists. split; [exact Hsub|]. split.
  - rewrite (message_handler_dispatch _ _ _ _ _ _ _ _ _ _ Hm Hi Hc Hj).
    by apply handle_dispath_message_subscribed.
  - eapply (proj1 (List.filter_In is_call _ _)).
    fold (calls (dispatch_events raises k
            [endpoint_uuid; d; reply_argument reply_to] (trace w1)
            (default [] (_subscriptions w !! k) ++ [PFunc f]))).
    rewrite calls_dispatch_events, invocations_app.
    apply List.in_or_app. right. by left.
Qed.

(** Two subscriptions of one function leave it twice in the list. *)
Lemma subscribe_twice signal k f w :
  Register.validate_signal signal = Ok k ->
  exists w2,
    (Register.subscribe signal (PFunc f) ;;
     Register.subscribe signal (PFunc f)) w = (Ok tt, w2)
    /\ _subscriptions w2 !! k
       = Some (default [] (_subscriptions w !! k) ++ [PFunc f; PFunc f])
    /\ trace w2 = trace w.
Proof.
  intros Hk.
  destruct (subscribe_func signal k f w Hk) as (w1 & H1 & Hl1 & _ & Ht1).
  destruct (subscribe_func signal k f w1 Hk) as (w2 & H2 & Hl2 & _ & Ht2).
  exists w2. unfold bind at 1. rewrite H1. split; [exact H2|]. split.
  - rewrite Hl2, Hl1. cbn. by rewrite <- app_assoc.
  - by rewrite Ht2.
Qed.

End SubscribeFacts.

(** ** Register.message_handler on malformed frames *)

Section MalformedFrames.

Variable raises : list event -> event -> option exn.
Variable json_loads : string -> option pyobj.

(** A DISPATCH frame whose arguments are not four in number raises the
    [ValueError] of the unpacking, which [except IndexError] lets through;
    nothing is logged and the world is as before. *)
Lemma message_handler_dispatch_arity command args w :
  Py.eq_str (Register.normalise_command command) "dispatch" = true ->
  length args <> 4 ->
  Register.message_handler raises json_loads (PTuple (command :: args)) w
  = (Raise ValueError, w).
Proof.
  intros Hc Hn. unfold Register.message_handler, bind, lift.
  cbn [Py.len length Nat.ltb Nat.leb Py.getitem0]. rewrite Hc.
  destruct args as [|a1 [|a2 [|a3 [|a4 [|a5 args]]]]]; try reflexivity.
  by destruct Hn.
Qed.

(** C3: the DISPATCH frame of [pub.py], which has three argument fields,
    makes [message_handler] raise [ValueError]: the exception leaves the
    handler, and no entry is logged. No callback is called and the table is
    untouched; under [message_in] the exception is caught, and the next
    frame is handled. *)
Theorem message_handler_short_dispatch_raises w :
  Register.message_handler raises json_loads
    (PTuple [PStr "DISPATCH"; PStr "abc"; PStr "{}"; PStr "1"]) w
  = (Raise ValueError, w)
  /\ Transceiver.message_in (Some (Register.message_handler raises json_loads))
       (PTuple [PStr "DISPATCH"; PStr "abc"; PStr "{}"; PStr "1"]) w
     = (Ok tt,
        add_events
          [received_entry (PTuple [PStr "DISPATCH"; PStr "abc"; PStr "{}"; PStr "1"]);
           handler_error_entry] w).
Proof.
  split.
  - by apply message_handler_dispatch_arity.
  - rewrite message_in_unfold, message_handler_dispatch_arity by done.
    by rewrite !record_event_add, add_events_app.
Qed.

(** C10: on the empty tuple, the frame with no field as [message_in] would
    pass it, the formatting of the log message raises [TypeError], for a
    tuple gives the arguments of a format and this one gives none: no entry
    is logged and the exception leaves the handler. On the empty list the
    entry is logged and the handler returns. *)
Theorem message_handler_empty_tuple_raises w :
  Register.message_handler raises json_loads (PTuple []) w = (Raise TypeError, w)
  /\ Register.message_handler raises json_loads (PList []) w
     = (Ok tt,
        record_event
          (ELog ERROR "message_handler: invalid message <%s>" [PList []]) w).
Proof. split; reflexivity. Qed.

End MalformedFrames.

(** ** Register.subscribe of one callback twice *)

(** C1: a function subscribed twice to one signal is twice in the list of
    the signal, the second call logs no warning, and a dispatch of the signal
    calls the function twice. *)
Theorem subscribe_twice_calls_twice :
  exists w2 w3,
    (Register.subscribe (PStr "tea_time") (PFunc 1) ;;
     Register.subscribe (PStr "tea_time") (PFunc 1)) Demo.fresh = (Ok tt, w2)
    /\ _subscriptions w2 !! "TEA_TIME" = Some [PFunc 1; PFunc 1]
    /\ trace w2 = []
    /\ Register.message_handler Demo.quiet Demo.loads
         (PTuple [PStr "DISPATCH"; PStr "abc"; PStr "tea_time"; PStr "{}"; PStr "0"]) w2
       = (Ok tt, w3)
    /\ trace w3 = [ECall 1 [PStr "abc"; PDict []; PNone];
                   ECall 1 [PStr "abc"; PDict []; PNone]].
Proof.
  destruct (subscribe_twice (PStr "tea_time") "TEA_TIME" 1 Demo.fresh eq_refl)
    as (w2 & H2 & Hl & Ht).
  change (_subscriptions w2 !! "TEA_TIME" = Some [PFunc 1; PFunc 1]) in Hl.
  change (trace w2 = []) in Ht.
  assert (Hrun :
    Register.message_handler Demo.quiet Demo.loads
      (PTuple [PStr "DISPATCH"; PStr "abc"; PStr "tea_time"; PStr "{}"; PStr "0"]) w2
    = (Ok tt,
       add_events
         (dispatch_events Demo.quiet "TEA_TIME" [PStr "abc"; PDict []; PNone]
            (trace w2) [PFunc 1; PFunc 1]) w2)).
  { rewrite (message_handler_dispatch Demo.quiet Demo.loads
               (PTuple [PStr "DISPATCH"; PStr "abc"; PStr "tea_time"; PStr "{}";
                        PStr "0"])
               (PStr "DISPATCH") (PStr "abc") (PStr "tea_time") (PStr "{}")
               (PStr "0") (PDict []) w2 eq_refl eq_refl eq_refl eq_refl).
    by apply handle_dispath_message_subscribed. }
  exists w2. eexists. split; [exact H2|]. split; [exact Hl|]. split; [exact Ht|].
  split; [exact Hrun|]. cbn. by rewrite Ht.
Qed.

(** ** Register.publish *)

Section PublishFacts.

Variable raises : list event -> event -> option exn.
Variable json_dumps : pyobj -> option string.

(** C2, amended: [publish] hands to [send] the DISPATCH frame made of the
    endpoint id of the registry, the signal exactly as it was given, the
    JSON text of the data and the string "0"; the frame goes on the wire
    after the SYNC frame when no ZeroMQ operation raises. *)
Theorem publish_sends_signal_as_given signal data j w :
  json_dumps data = Some j ->
  Register.publish raises json_dumps signal data w
  = Transceiver.message_out raises
      (PList [PStr "DISPATCH"; PStr (endpoint_uuid w); signal; PStr j; PStr "0"]) w
  /\ ((forall h op, raises h (EZmq op) = None) ->
      Register.publish raises json_dumps signal data w
      = (Ok tt,
         add_events
           (send_sequence (outgoing_uri w)
              (PList [PStr "DISPATCH"; PStr (endpoint_uuid w); signal;
                      PStr j; PStr "0"])) w)).
Proof.
  intros Hj.
  assert (H : Register.publish raises json_dumps signal data w
    = Transceiver.message_out raises
        (PList [PStr "DISPATCH"; PStr (endpoint_uuid w); signal; PStr j; PStr "0"]) w).
  { unfold Register.publish, bind, gets, lift, Frames.dispatch_message.
    by rewrite Hj. }
  split; [exact H|]. intros Hq. rewrite H. by apply message_out_quiet.
Qed.

End PublishFacts.

(** C2, as stated, fails: the signal " tea_time " has the normal form
    "TEA_TIME", and the frame that [publish] sends carries " tea_time ";
    no frame with "TEA_TIME" is sent. *)
Lemma publish_does_not_normalise :
  Register.validate_signal (PStr " tea_time ") = Ok "TEA_TIME"
  /\ trace (snd (Register.publish Demo.quiet Demo.dumps
                   (PStr " tea_time ") (PDict []) Demo.fresh))
     = send_sequence "tcp://localhost:15567"
         (PList [PStr "DISPATCH"; PStr "7d9c2a"; PStr " tea_time "; PStr "{}";
                 PStr "0"])
  /\ ~ In (EZmq (ZSendMultipart
                   (PList [PStr "DISPATCH"; PStr "7d9c2a"; PStr "TEA_TIME";
                           PStr "{}"; PStr "0"])))
          (trace (snd (Register.publish Demo.quiet Demo.dumps
                         (PStr " tea_time ") (PDict []) Demo.fresh))).
Proof.
  split; [reflexivity|]. split; [reflexivity|].
  cbn. intros H. repeat (destruct H as [H|H]; [discriminate H|]). exact H.
Qed.

(** ** The theorems at work *)

Ltac same_letter_step :=
  first [ left; reflexivity
        | right; left; split; reflexivity
        | right; right; split; reflexivity ].

Lemma tea_time_variants : differ_in_case_and_padding " tea_time " "Tea_Time".
Proof.
  exists " ", "tea_time", " ", "", "Tea_Time", "".
  repeat (split; [reflexivity|]).
  repeat (constructor; [same_letter_step|]). constructor.
Defined.

Lemma message_out_rejects_non_sequence_witness :
  Transceiver.message_out Demo.quiet (PStr "DISPATCH") Demo.fresh
  = (Raise MessageOutError, Demo.fresh).
Proof.
  apply (message_out_rejects_non_sequence Demo.quiet (PStr "DISPATCH") Demo.fresh).
  reflexivity.
Defined.

Lemma message_out_sync_then_message_witness :
  exists w',
    Transceiver.message_out Demo.quiet (PTuple [PStr "HUB_PRESENT"; PStr "{}"]) Demo.fresh
    = (Ok tt, w')
    /\ trace w'
       = [EZmq ZContext; EZmq ZSocketPush; EZmq (ZConnect "tcp://localhost:15567");
          EZmq (ZSendMultipart (PList [PStr "SYNC"]));
          EZmq (ZSendMultipart (PTuple [PStr "HUB_PRESENT"; PStr "{}"]));
          EZmq ZClose; EZmq ZTerm].
Proof.
  destruct (message_out_sync_then_message Demo.quiet
              (PTuple [PStr "HUB_PRESENT"; PStr "{}"]) Demo.fresh eq_refl)
    as [Htrace Hreturns].
  destruct (Hreturns (fun _ _ => eq_refl)) as [w' Hw'].
  exists w'. split; [exact Hw'|].
  exact (proj1 (Htrace w' Hw')).
Defined.

Lemma dispatch_isolates_subscriber_failures_witness :
  exists evs,
    Register.handle_dispath_message Demo.second_fails
      (PStr "abc") (PStr " tea_time") (PDict []) (PStr "reply-1")
      Demo.three_subscribers
    = (Ok tt, add_events evs Demo.three_subscribers)
    /\ calls evs
       = [ECall 1 [PStr "abc"; PDict []; PStr "reply-1"];
          ECall 2 [PStr "abc"; PDict []; PStr "reply-1"];
          ECall 3 [PStr "abc"; PDict []; PStr "reply-1"]].
Proof.
  destruct (dispatch_isolates_subscriber_failures Demo.second_fails
              (PStr "abc") (PStr " tea_time") (PDict []) (PStr "reply-1")
              "TEA_TIME" [PFunc 1; PFunc 2; PFunc 3] Demo.three_subscribers
              eq_refl eq_refl)
    as (evs & Hrun & Hcalls & _ & _).
  exists evs. split; [exact Hrun | exact Hcalls].
Defined.

Lemma dispatch_reply_to_sentinel_witness :
  exists evs,
    Register.message_handler Demo.quiet Demo.loads
      (PTuple [PStr "DISPATCH"; PStr "abc"; PStr "tea_time"; PStr "{}"; PStr "0"])
      Demo.three_subscribers
    = (Ok tt, add_events evs Demo.three_subscribers)
    /\ calls evs
       = [ECall 1 [PStr "abc"; PDict []; PNone];
          ECall 2 [PStr "abc"; PDict []; PNone];
          ECall 3 [PStr "abc"; PDict []; PNone]].
Proof.
  destruct (dispatch_reply_to_sentinel Demo.quiet Demo.loads
              (PTuple [PStr "DISPATCH"; PStr "abc"; PStr "tea_time"; PStr "{}";
                       PStr "0"])
              (PStr "DISPATCH") (PStr "abc") (PStr "tea_time") (PStr "{}")
              (PStr "0") (PDict []) "TEA_TIME" [PFunc 1; PFunc 2; PFunc 3]
              Demo.three_subscribers
              eq_refl eq_refl eq_refl eq_refl eq_refl eq_refl)
    as (evs & Hrun & Hzero & _).
  exists evs. split; [exact Hrun | exact (Hzero eq_refl)].
Defined.

Lemma subscription_lookup_ignores_case_and_padding_witness :
  exists w1 evs,
    Register.subscribe (PStr " tea_time ") (PFunc 7) Demo.fresh = (Ok tt, w1)
    /\ Register.message_handler Demo.quiet Demo.loads
         (PTuple [PStr "dispatch"; PStr "abc"; PStr "Tea_Time"; PStr "{}"; PStr "0"])
         w1
       = (Ok tt, add_events evs w1)
    /\ In (ECall 7 [PStr "abc"; PDict []; PNone]) evs.
Proof.
  apply (subscription_lookup_ignores_case_and_padding Demo.quiet Demo.loads
           " tea_time " "Tea_Time" "TEA_TIME" 7
           (PTuple [PStr "dispatch"; PStr "abc"; PStr "Tea_Time"; PStr "{}";
                    PStr "0"])
           (PStr "dispatch") (PStr "abc") (PStr "{}") (PStr "0") (PDict [])
           Demo.fresh tea_time_variants eq_refl eq_refl eq_refl eq_refl eq_refl).
Defined.

Lemma publish_sends_signal_as_given_witness :
  Register.publish Demo.quiet Demo.dumps (PStr " tea_time ") (PDict []) Demo.fresh
  = (Ok tt,
     add_events
       (send_sequence "tcp://localhost:15567"
          (PList [PStr "DISPATCH"; PStr "7d9c2a"; PStr " tea_time "; PStr "{}";
                  PStr "0"])) Demo.fresh).
Proof.
  apply (proj2 (publish_sends_signal_as_given Demo.quiet Demo.dumps
                  (PStr " tea_time ") (PDict []) "{}" Demo.fresh eq_refl)).
  reflexivity.
Defined.

(** * More of the endpoint *)

(** ** Register.validate_signal *)

Section ValidateSignalFacts.

Lemma upper_char_isspace c : PyStr.isspace (PyStr.upper_char c) = PyStr.isspace c.
Proof. destruct c as [[] [] [] [] [] [] [] []]; reflexivity. Qed.

Lemma upper_char_idem c : PyStr.upper_char (PyStr.upper_char c) = PyStr.upper_char c.
Proof. destruct c as [[] [] [] [] [] [] [] []]; reflexivity. Qed.

Lemma upper_idem s : PyStr.upper (PyStr.upper s) = PyStr.upper s.
Proof.
  induction s as [|c s IH]; [reflexivity|].
  simpl. by rewrite upper_char_idem, IH.
Qed.

Lemma upper_empty s : PyStr.upper s = "" <-> s = "".
Proof. destruct s; simpl; split; intros H; try reflexivity; discriminate H. Qed.

Lemma upper_lstrip s : PyStr.upper (PyStr.lstrip s) = PyStr.lstrip (PyStr.upper s).
Proof.
  induction s as [|c s IH]; [reflexivity|].
  simpl. rewrite upper_char_isspace.
  destruct (PyStr.isspace c); [exact IH | reflexivity].
Qed.

Lemma upper_rstrip s : PyStr.upper (PyStr.rstrip s) = PyStr.rstrip (PyStr.upper s).
Proof.
  induction s as [|c s IH]; [reflexivity|].
  simpl. rewrite <- IH, upper_char_isspace.
  destruct (PyStr.rstrip s) as [|a r]; simpl.
  - by destruct (PyStr.isspace c).
  - reflexivity.
Qed.

Lemma upper_strip s : PyStr.upper (PyStr.strip s) = PyStr.strip (PyStr.upper s).
Proof. unfold PyStr.strip. by rewrite upper_rstrip, upper_lstrip. Qed.

Lemma rstrip_idem s : PyStr.rstrip (PyStr.rstrip s) = PyStr.rstrip s.
Proof.
  induction s as [|c s IH]; [reflexivity|].
  simpl. destruct (PyStr.rstrip s) as [|a r] eqn:E.
  - destruct (PyStr.isspace c) eqn:Ec; [reflexivity|].
    simpl. by rewrite Ec.
  - change (PyStr.rstrip (String c (String a r))) with
      (match PyStr.rstrip (String a r) with
       | EmptyString => if PyStr.isspace c then EmptyString else String c EmptyString
       | x => String c x
       end).
    by rewrite IH.
Qed.

(** What [lstrip] returns is empty or starts with a character that is not
    whitespace. *)
Lemma lstrip_head s :
  PyStr.lstrip s = ""
  \/ exists c r, PyStr.lstrip s = String c r /\ PyStr.isspace c = false.
Proof.
  induction s as [|c s IH]; [by left|].
  simpl. destruct (PyStr.isspace c) eqn:Ec; [exact IH|].
  right. by exists c, s.
Qed.

Lemma lstrip_rstrip_lstrip s :
  PyStr.lstrip (PyStr.rstrip (PyStr.lstrip s)) = PyStr.rstrip (PyStr.lstrip s).
Proof.
  destruct (lstrip_head s) as [->|(c & r & -> & Hc)]; [reflexivity|].
  simpl. destruct (PyStr.rstrip r); rewrite ?Hc; simpl; by rewrite Hc.
Qed.

Lemma strip_idem s : PyStr.strip (PyStr.strip s) = PyStr.strip s.
Proof. unfold PyStr.strip. by rewrite lstrip_rstrip_lstrip, rstrip_idem. Qed.

Lemma rstrip_empty s : PyStr.rstrip s = "" -> PyStr.all_space s = true.
Proof.
  induction s as [|c s IH]; [reflexivity|].
  simpl. destruct (PyStr.rstrip s) as [|a r]; [|discriminate].
  destruct (PyStr.isspace c); [|discriminate].
  intros _. by apply IH.
Qed.

Lemma lstrip_empty s : PyStr.lstrip s = "" -> PyStr.all_space s = true.
Proof.
  induction s as [|c s IH]; [reflexivity|].
  simpl. destruct (PyStr.isspace c); [exact IH | discriminate].
Qed.

Lemma strip_empty s : PyStr.strip s = "" <-> PyStr.all_space s = true.
Proof.
  unfold PyStr.strip. split.
  - intros H. apply rstrip_empty in H.
    destruct (lstrip_head s) as [E|(c & r & E & Hc)].
    + by apply lstrip_empty.
    + rewrite E in H. simpl in H. by rewrite Hc in H.
  - intros H. by rewrite (lstrip_all_space s H).
Qed.

(** X1: [validate_signal] accepts exactly the strings that hold a character
    other than whitespace, and returns their stripped upper-case form;
    anything else, a value that is no string included, is a [ValueError]. *)
Theorem validate_signal_accepts signal k :
  (Register.validate_signal signal = Ok k
   <-> exists s, signal = PStr s /\ PyStr.all_space s = false
                 /\ k = PyStr.upper (PyStr.strip s))
  /\ ((forall k', Register.validate_signal signal <> Ok k')
      -> Register.validate_signal signal = Raise ValueError).
Proof.
  split; [split|].
  - destruct signal as [| |s| | | |]; try discriminate. simpl.
    destruct (String.eqb _ "") eqn:E; [discriminate|].
    intros [= <-]. exists s. split; [reflexivity|]. split; [|reflexivity].
    apply String.eqb_neq in E.
    destruct (PyStr.all_space s) eqn:Hs; [|reflexivity].
    destruct E. apply upper_empty. by apply strip_empty.
  - intros (s & -> & Hs & ->). simpl.
    destruct (String.eqb _ "") eqn:E; [|reflexivity].
    apply String.eqb_eq, upper_empty, strip_empty in E. congruence.
  - intros Hno. destruct (Register.validate_signal signal) as [k'|e] eqn:E.
    + by destruct (Hno k').
    + by rewrite (validate_signal_raises signal e E).
Qed.

(** X2: the signal that [validate_signal] returns is a valid signal and
    its own normal form: validating it again returns it unchanged. *)
Theorem validate_signal_idempotent signal k :
  Register.validate_signal signal = Ok k ->
  Register.validate_signal (PStr k) = Ok k.
Proof.
  destruct signal as [| |s| | | |]; try discriminate. simpl.
  destruct (String.eqb (PyStr.upper (PyStr.strip s)) "") eqn:E; [discriminate|].
  intros [= <-].
  by rewrite <- upper_strip, strip_idem, upper_idem, E.
Qed.

End ValidateSignalFacts.

(** ** Register.message_handler, command by command *)

Section CommandFacts.

Variable raises : list event -> event -> option exn.
Variable json_loads : string -> option pyobj.

Lemma normalise_command_str c :
  Register.normalise_command (PStr c) = PStr (PyStr.lower (PyStr.strip c)).
Proof. by destruct c. Qed.

(** Unfolds the handler on a list or tuple with a first field. *)
Ltac open_frame message Hm Hi :=
  destruct message as [| | |?xs|?xs| |]; try discriminate Hm;
  simpl in Hi; injection Hi as ->;
  unfold Register.message_handler, bind, lift, ret;
  cbn [Py.len length Nat.ltb Nat.leb Py.getitem0].

(** X3: a frame whose command is SYNC, in any case and with any padding, is
    ignored whatever follows the command: the handler returns and the world
    is as before. *)
Theorem message_handler_ignores_sync message command args w :
  Py.is_list_or_tuple message = true ->
  Py.iter message = Ok (command :: args) ->
  Py.eq_str (Register.normalise_command command) "sync" = true ->
  Register.message_handler raises json_loads message w = (Ok tt, w).
Proof.
  intros Hm Hi Hc. apply eq_str_true in Hc.
  open_frame message Hm Hi; rewrite Hc; by destruct args.
Qed.

(** X4: a frame whose command is a string other than DISPATCH, HUB_PRESENT
    and SYNC is dropped: the handler logs the command, in its stripped
    lower-case form, as unknown and returns; the fields of the registry are
    as before. *)
Theorem message_handler_drops_unknown_command message c args w :
  Py.is_list_or_tuple message = true ->
  Py.iter message = Ok (PStr c :: args) ->
  PyStr.lower (PyStr.strip c) <> "dispatch" ->
  PyStr.lower (PyStr.strip c) <> "hub_present" ->
  PyStr.lower (PyStr.strip c) <> "sync" ->
  Register.message_handler raises json_loads message w
  = (Ok tt,
     record_event
       (ELog ERROR "message_handler: unknown command <%s> no action taken."
          [PStr (PyStr.lower (PyStr.strip c))]) w).
Proof.
  intros Hm Hi Hd Hh Hs.
  apply String.eqb_neq in Hd, Hh, Hs.
  open_frame message Hm Hi; rewrite normalise_command_str;
    cbn [Py.eq_str]; rewrite Hd, Hh, Hs; by destruct args.
Qed.

(** X5: a HUB_PRESENT frame with no payload is logged as an error and
    dropped, the [IndexError] of the missing field being caught; with a
    payload that is JSON the frame is accepted and nothing is done, whatever
    fields follow the payload. *)
Theorem message_handler_hub_present message command w :
  Py.is_list_or_tuple message = true ->
  Py.eq_str (Register.normalise_command command) "hub_present" = true ->
  (Py.iter message = Ok [command] ->
   Register.message_handler raises json_loads message w
   = (Ok tt,
      record_event
        (ELog ERROR
           "message_handler: no version data found in hub present message!" [])
        w))
  /\ (forall payload rest d,
        Py.iter message = Ok (command :: payload :: rest) ->
        Register.py_json_loads json_loads payload = Ok d ->
        Register.message_handler raises json_loads message w = (Ok tt, w)).
Proof.
  intros Hm Hc. apply eq_str_true in Hc. split.
  - intros Hi. open_frame message Hm Hi; rewrite Hc; reflexivity.
  - intros payload rest d Hi Hd.
    open_frame message Hm Hi; rewrite Hc; cbn [Py.eq_str String.eqb];
      unfold try_except_IndexError, bind, lift; cbn; by rewrite Hd.
Qed.

(** X6: the data field of a DISPATCH frame and the payload of a HUB_PRESENT
    frame are decoded unguarded: when the text is not JSON the [ValueError]
    of the decoder leaves the handler; nothing is logged and no callback is
    called. *)
Theorem message_handler_bad_json_escapes
    message command endpoint_uuid signal text reply_to rest w :
  Py.is_list_or_tuple message = true ->
  json_loads text = None ->
  (Py.iter message = Ok [command; endpoint_uuid; signal; PStr text; reply_to] ->
   Py.eq_str (Register.normalise_command command) "dispatch" = true ->
   Register.message_handler raises json_loads message w = (Raise ValueError, w))
  /\ (Py.iter message = Ok (command :: PStr text :: rest) ->
      Py.eq_str (Register.normalise_command command) "hub_present" = true ->
      Register.message_handler raises json_loads message w = (Raise ValueError, w)).
Proof.
  intros Hm Ht. split; intros Hi Hc; apply eq_str_true in Hc.
  - open_frame message Hm Hi; rewrite Hc; cbn [Py.eq_str String.eqb];
      unfold try_except_IndexError, bind, lift; cbn; by rewrite Ht.
  - open_frame message Hm Hi; rewrite Hc; cbn [Py.eq_str String.eqb];
      unfold try_except_IndexError, bind, lift; cbn; by rewrite Ht.
Qed.

(** X7: a well-formed DISPATCH frame for a signal nobody subscribed to is
    ignored: the handler returns, nothing is logged, nothing is called. *)
Theorem message_handler_ignores_unsubscribed_signal
    message command endpoint_uuid signal data reply_to d k w :
  Py.is_list_or_tuple message = true ->
  Py.iter message = Ok [command; endpoint_uuid; signal; data; reply_to] ->
  Py.eq_str (Register.normalise_command command) "dispatch" = true ->
  Register.py_json_loads json_loads data = Ok d ->
  Register.validate_signal signal = Ok k ->
  _subscriptions w !! k = None ->
  Register.message_handler raises json_loads message w = (Ok tt, w).
Proof.
  intros Hm Hi Hc Hd Hk Hs.
  rewrite (message_handler_dispatch _ _ _ _ _ _ _ _ _ _ Hm Hi Hc Hd).
  by apply handle_dispath_message_unsubscribed with k.
Qed.

(** X8: a DISPATCH frame whose signal field is empty or whitespace makes
    the handler raise the [ValueError] of [validate_signal], whoever is
    subscribed: nothing is called and nothing is logged. *)
Theorem message_handler_blank_signal_escapes
    message command endpoint_uuid s data reply_to d w :
  Py.is_list_or_tuple message = true ->
  Py.iter message = Ok [command; endpoint_uuid; PStr s; data; reply_to] ->
  Py.eq_str (Register.normalise_command command) "dispatch" = true ->
  Register.py_json_loads json_loads data = Ok d ->
  PyStr.all_space s = true ->
  Register.message_handler raises json_loads message w = (Raise ValueError, w).
Proof.
  intros Hm Hi Hc Hd Hs.
  rewrite (message_handler_dispatch _ _ _ _ _ _ _ _ _ _ Hm Hi Hc Hd).
  unfold Register.handle_dispath_message, bind, lift, Register.validate_signal.
  apply strip_empty in Hs. by rewrite Hs.
Qed.

End CommandFacts.

(** ** The inbound path leaves the registry alone *)

Section InboundFacts.

Variable raises : list event -> event -> option exn.
Variable json_loads : string -> option pyobj.

















End InboundFacts.

(** ** Commands are matched whatever their case *)

Section CommandCaseFacts.

Variable raises : list event -> event -> option exn.
Variable json_loads : string -> option pyobj.

Lemma same_letter_lower a b :
  same_letter a b -> PyStr.lower_char a = PyStr.lower_char b.
Proof.
  intros [->|[[Hu Hn]|[Hu Hn]]]; [reflexivity| |].
  - rewrite <- (ascii_nat_embedding b), Hn.
    destruct a as [[] [] [] [] [] [] [] []]; try discriminate Hu; reflexivity.
  - rewrite <- (ascii_nat_embedding a), Hn.
    destruct b as [[] [] [] [] [] [] [] []]; try discriminate Hu; reflexivity.
Qed.

Lemma same_letters_lower s t :
  same_letters s t -> PyStr.lower s = PyStr.lower t.
Proof.
  induction 1 as [|a b s t Hab _ IH]; [reflexivity|].
  simpl. by rewrite (same_letter_lower a b Hab), IH.
Qed.

Lemma command_form_unique c1 c2 :
  differ_in_case_and_padding c1 c2 ->
  Register.normalise_command (PStr c1) = Register.normalise_command (PStr c2).
Proof.
  intros (l1 & t1 & r1 & l2 & t2 & r2 & -> & -> & Hl1 & Hr1 & Hl2 & Hr2 & Ht).
  rewrite !normalise_command_str, !strip_padding by assumption.
  f_equal. apply same_letters_lower. unfold PyStr.strip.
  by apply same_letters_rstrip, same_letters_lstrip.
Qed.

(** X11: the command of a frame is read whatever its case and the
    whitespace around it: two frames, both lists or both tuples, whose
    commands differ in that only and whose other fields are the same are
    handled the same way, down to the trace. *)
Theorem message_handler_command_case c1 c2 args w :
  differ_in_case_and_padding c1 c2 ->
  Register.message_handler raises json_loads (PTuple (PStr c1 :: args)) w
  = Register.message_handler raises json_loads (PTuple (PStr c2 :: args)) w
  /\ Register.message_handler raises json_loads (PList (PStr c1 :: args)) w
     = Register.message_handler raises json_loads (PList (PStr c2 :: args)) w.
Proof.
  intros H. apply command_form_unique in H.
  split; unfold Register.message_handler, bind, lift;
    cbn [Py.len length Nat.ltb Nat.leb Py.getitem0]; by rewrite H.
Qed.

End CommandCaseFacts.

(** ** Register.subscribe and Register.unsubscribe *)

Section SubscriptionFacts.

Variable raises : list event -> event -> option exn.
Variable json_loads : string -> option pyobj.

(** X12: [subscribe] of a function under a valid signal appends it to the
    end of the list kept under the normal form of the signal, a list that
    starts empty; the lists of the other signals are untouched and nothing is
    logged or called. *)
Theorem subscribe_appends signal k f w :
  Register.validate_signal signal = Ok k ->
  exists w',
    Register.subscribe signal (PFunc f) w = (Ok tt, w')
    /\ _subscriptions w' !! k
       = Some (default [] (_subscriptions w !! k) ++ [PFunc f])
    /\ (forall k', k' <> k -> _subscriptions w' !! k' = _subscriptions w !! k')
    /\ trace w' = trace w
    /\ endpoint_uuid w' = endpoint_uuid w
    /\ outgoing_uri w' = outgoing_uri w.
Proof.
  intros Hk. unfold Register.subscribe, bind, lift, gets, ret. rewrite Hk.
  destruct (_subscriptions w !! k) as [l|] eqn:Hl; cbn;
    (eexists; split; [reflexivity|]; cbn; repeat split).
  - by rewrite lookup_alter_eq, Hl.
  - intros k' Hne. by rewrite lookup_alter_ne.
  - by rewrite lookup_alter_eq, lookup_insert_eq.
  - intros k' Hne. by rewrite lookup_alter_ne, lookup_insert_ne.
Qed.

(** X13: [subscribe] with a signal that is no string, or is empty or
    whitespace, raises [ValueError] before it touches the table: the world is
    as before. *)
Theorem subscribe_invalid_signal signal callback w :
  (forall k, Register.validate_signal signal <> Ok k) ->
  Register.subscribe signal callback w = (Raise ValueError, w).
Proof.
  intros Hno. unfold Register.subscribe, bind, lift.
  destruct (Register.validate_signal signal) as [k|e] eqn:E.
  - by destruct (Hno k).
  - by rewrite (validate_signal_raises signal e E).
Qed.

(** X14: subscribers are called in the order of their subscription. When
    [f] and then [g] are subscribed under signals of one normal form, a
    dispatch of that signal calls the earlier subscribers, then [f], then
    [g], each with the endpoint id, the data and the reply-to of the frame. *)
Theorem subscription_order_is_call_order
    s1 s2 k f g endpoint_uuid signal data reply_to w :
  Register.validate_signal s1 = Ok k ->
  Register.validate_signal s2 = Ok k ->
  Register.validate_signal signal = Ok k ->
  exists w2 evs,
    (Register.subscribe s1 (PFunc f) ;; Register.subscribe s2 (PFunc g)) w
    = (Ok tt, w2)
    /\ Register.handle_dispath_message raises endpoint_uuid signal data reply_to w2
       = (Ok tt, add_events evs w2)
    /\ calls evs
       = invocations [endpoint_uuid; data; reply_argument reply_to]
           (default [] (_subscriptions w !! k))
         ++ [ECall f [endpoint_uuid; data; reply_argument reply_to];
             ECall g [endpoint_uuid; data; reply_argument reply_to]].
Proof.
  intros H1 H2 Hk.
  destruct (subscribe_func s1 k f w H1) as (w1 & E1 & L1 & _ & _).
  destruct (subscribe_func s2 k g w1 H2) as (w2 & E2 & L2 & _ & _).
  rewrite L1 in L2. cbn in L2. rewrite <- app_assoc in L2.
  exists w2. eexists. unfold bind at 1. rewrite E1. split; [exact E2|]. split.
  - by apply handle_dispath_message_subscribed.
  - by rewrite calls_dispatch_events, invocations_app.
Qed.

(** X15: [unsubscribe] removes nothing. A function that was subscribed and
    then unsubscribed from its signal is still called on a dispatch of the
    signal. *)
Theorem unsubscribe_keeps_subscriber
    s k f endpoint_uuid signal data reply_to w :
  Register.validate_signal s = Ok k ->
  Register.validate_signal signal = Ok k ->
  exists w2 evs,
    (Register.subscribe s (PFunc f) ;; Register.unsubscribe s (PFunc f)) w
    = (Ok tt, w2)
    /\ _subscriptions w2 !! k
       = Some (default [] (_subscriptions w !! k) ++ [PFunc f])
    /\ Register.handle_dispath_message raises endpoint_uuid signal data reply_to w2
       = (Ok tt, add_events evs w2)
    /\ In (ECall f [endpoint_uuid; data; reply_argument reply_to]) evs.
Proof.
  intros Hs Hk.
  destruct (subscribe_func s k f w Hs) as (w1 & E1 & L1 & _ & _).
  exists w1. eexists. unfold bind at 1. rewrite E1.
  split; [reflexivity|]. split; [exact L1|]. split.
  - by apply handle_dispath_message_subscribed.
  - eapply (proj1 (List.filter_In is_call _ _)).
    fold (calls (dispatch_events raises k
            [endpoint_uuid; data; reply_argument reply_to] (trace w1)
            (default [] (_subscriptions w !! k) ++ [PFunc f]))).
    rewrite calls_dispatch_events, invocations_app.
    apply List.in_or_app. right. by left.
Qed.

End SubscriptionFacts.

(** ** Transceiver.message_out when ZeroMQ fails *)

Section SendFailureFacts.

Variable raises : list event -> event -> option exn.

Ltac run_send Hm :=
  unfold Transceiver.message_out; rewrite Hm;
  unfold bind, try_finally, gets, Transceiver.perform;
  cbn [trace record_event].

(** X16: when the socket cannot be created, the exception leaves [send]
    at once: the socket creation is outside the [try], so neither [close] nor
    [term] is called and nothing is connected or sent. *)
Theorem message_out_socket_failure m e w :
  Py.is_list_or_tuple m = true ->
  raises (trace w) (EZmq ZContext) = None ->
  raises (trace w ++ [EZmq ZContext]) (EZmq ZSocketPush) = Some e ->
  Transceiver.message_out raises m w
  = (Raise e, add_events [EZmq ZContext; EZmq ZSocketPush] w).
Proof.
  intros Hm Hc Hs. run_send Hm. rewrite Hc. cbn [trace record_event].
  rewrite Hs. unfold add_events, record_event; cbn. by rewrite <- app_assoc.
Qed.

(** X17: once the socket exists, [close] is called whatever happens to the
    connection and to the two sends. *)
Theorem message_out_always_closes m w :
  Py.is_list_or_tuple m = true ->
  raises (trace w) (EZmq ZContext) = None ->
  raises (trace w ++ [EZmq ZContext]) (EZmq ZSocketPush) = None ->
  exists evs,
    snd (Transceiver.message_out raises m w)
    = add_events
        ([EZmq ZContext; EZmq ZSocketPush; EZmq (ZConnect (outgoing_uri w))] ++ evs) w
    /\ In (EZmq ZClose) evs.
Proof.
  intros Hm Hc Hs. run_send Hm. rewrite Hc. cbn [trace record_event].
  rewrite Hs. cbn [trace record_event outgoing_uri].
  repeat match goal with
         | |- context [raises ?h ?e] =>
             destruct (raises h e); cbn [trace record_event snd]
         end;
    unfold add_events, record_event; cbn;
    rewrite <- ?app_assoc; cbn;
    eexists; (split; [reflexivity|]); cbn; tauto.
Qed.

Hypothesis context_quiet : forall h, raises h (EZmq ZContext) = None.
Hypothesis socket_quiet : forall h, raises h (EZmq ZSocketPush) = None.
Hypothesis close_quiet : forall h, raises h (EZmq ZClose) = None.
Hypothesis term_quiet : forall h, raises h (EZmq ZTerm) = None.

(** X18: when the set-up and the clean-up go through, a failure of the
    connection or of a send is raised to the caller after the socket was
    closed and the context ended, and what comes after the failed operation
    is skipped: no SYNC frame and no message without a connection, no message
    without the SYNC frame. *)
Theorem message_out_failure_skips_the_rest m e w :
  Py.is_list_or_tuple m = true ->
  ((forall h uri, raises h (EZmq (ZConnect uri)) = Some e) ->
   Transceiver.message_out raises m w
   = (Raise e,
      add_events
        [EZmq ZContext; EZmq ZSocketPush; EZmq (ZConnect (outgoing_uri w));
         EZmq ZClose; EZmq ZTerm] w))
  /\ ((forall h uri, raises h (EZmq (ZConnect uri)) = None) ->
      (forall h, raises h (EZmq (ZSendMultipart Frames.sync_message)) = Some e) ->
      Transceiver.message_out raises m w
      = (Raise e,
         add_events
           [EZmq ZContext; EZmq ZSocketPush; EZmq (ZConnect (outgoing_uri w));
            EZmq (ZSendMultipart Frames.sync_message);
            EZmq ZClose; EZmq ZTerm] w))
  /\ ((forall h uri, raises h (EZmq (ZConnect uri)) = None) ->
      (forall h, raises h (EZmq (ZSendMultipart Frames.sync_message)) = None) ->
      (forall h, raises h (EZmq (ZSendMultipart m)) = Some e) ->
      Transceiver.message_out raises m w
      = (Raise e,
         add_events
           [EZmq ZContext; EZmq ZSocketPush; EZmq (ZConnect (outgoing_uri w));
            EZmq (ZSendMultipart Frames.sync_message); EZmq (ZSendMultipart m);
            EZmq ZClose; EZmq ZTerm] w)).
Proof.
  intros Hm. split; [|split].
  - intros Hconn. run_send Hm.
    rewrite !context_quiet. cbn [trace record_event].
    rewrite !socket_quiet. cbn [trace record_event outgoing_uri].
    rewrite !Hconn. cbn [trace record_event].
    rewrite !close_quiet. cbn [trace record_event].
    rewrite !term_quiet.
    unfold add_events, record_event; cbn. by rewrite <- !app_assoc.
  - intros Hconn Hsync. run_send Hm.
    rewrite !context_quiet. cbn [trace record_event].
    rewrite !socket_quiet. cbn [trace record_event outgoing_uri].
    rewrite !Hconn. cbn [trace record_event].
    rewrite !Hsync. cbn [trace record_event].
    rewrite !close_quiet. cbn [trace record_event].
    rewrite !term_quiet.
    unfold add_events, record_event; cbn. by rewrite <- !app_assoc.
  - intros Hconn Hsync Hsend. run_send Hm.
    rewrite !context_quiet. cbn [trace record_event].
    rewrite !socket_quiet. cbn [trace record_event outgoing_uri].
    rewrite !Hconn. cbn [trace record_event].
    rewrite !Hsync. cbn [trace record_event].
    rewrite !Hsend. cbn [trace record_event].
    rewrite !close_quiet. cbn [trace record_event].
    rewrite !term_quiet.
    unfold add_events, record_event; cbn. by rewrite <- !app_assoc.
Qed.

End SendFailureFacts.

Section CloseFailureFacts.

Variable raises : list event -> event -> option exn.

(** X19: when [close] raises, its exception is the one [send] raises,
    whether the message went out or not, and [term] is not called. *)
Theorem message_out_close_failure m e w :
  Py.is_list_or_tuple m = true ->
  (forall h, raises h (EZmq ZContext) = None) ->
  (forall h, raises h (EZmq ZSocketPush) = None) ->
  (forall h, raises h (EZmq ZClose) = Some e) ->
  exists evs,
    Transceiver.message_out raises m w = (Raise e, add_events evs w)
    /\ ~ In (EZmq ZTerm) evs.
Proof.
  intros Hm Hc Hs Hclose.
  unfold Transceiver.message_out; rewrite Hm.
  unfold bind, try_finally, gets, Transceiver.perform.
  cbn [trace record_event].
  rewrite !Hc. cbn [trace record_event].
  rewrite !Hs. cbn [trace record_event outgoing_uri].
  repeat match goal with
         | |- context [raises ?h (EZmq (ZConnect ?u))] =>
             destruct (raises h (EZmq (ZConnect u))); cbn [trace record_event]
         | |- context [raises ?h (EZmq (ZSendMultipart ?x))] =>
             destruct (raises h (EZmq (ZSendMultipart x))); cbn [trace record_event]
         end;
    rewrite !Hclose;
    unfold add_events, record_event; cbn;
    rewrite <- ?app_assoc; cbn;
    (eexists; split; [reflexivity|]);
    cbn; intros H; repeat (destruct H as [H|H]; [discriminate H|]); exact H.
Qed.

End CloseFailureFacts.

(** ** The outbound path *)

Section OutboundFacts.

Variable raises : list event -> event -> option exn.
Variable json_dumps : pyobj -> option string.

Lemma message_out_events m w :
  exists evs,
    snd (Transceiver.message_out raises m w) = add_events evs w
    /\ Forall (fun e => is_zmq e = true) evs.
Proof.
  unfold Transceiver.message_out.
  destruct (Py.is_list_or_tuple m).
  - unfold bind, try_finally, gets, Transceiver.perform.
    cbn [trace record_event].
    repeat match goal with
           | |- context [raises ?h ?e] =>
               destruct (raises h e); cbn [trace record_event snd outgoing_uri]
           end;
      unfold add_events, record_event; cbn;
      rewrite <- ?app_assoc; cbn;
      (eexists; split; [reflexivity|]); by repeat constructor.
  - exists []. by rewrite add_events_nil.
Qed.

(** X20: [send] does nothing but ZeroMQ operations: whatever it is given
    and whatever fails, it logs nothing, calls no callback and leaves the
    subscription table alone; and it performs no operation at all exactly
    when the message is neither a list nor a tuple. *)
Theorem message_out_only_zmq m w :
  exists evs,
    trace (snd (Transceiver.message_out raises m w)) = trace w ++ evs
    /\ Forall (fun e => is_zmq e = true) evs
    /\ _subscriptions (snd (Transceiver.message_out raises m w)) = _subscriptions w
    /\ (evs = [] <-> Py.is_list_or_tuple m = false).
Proof.
  destruct (message_out_events m w) as (evs & E & F).
  exists evs. rewrite E. repeat split; try assumption.
  - intros ->. destruct (Py.is_list_or_tuple m) eqn:Hm; [|reflexivity].
    revert E. unfold Transceiver.message_out. rewrite Hm.
    unfold bind, Transceiver.perform.
    destruct (raises (trace w) (EZmq ZContext)); cbn [snd];
      [intros E | destruct (raises _ (EZmq ZSocketPush)); cbn [snd];
                  [intros E | unfold try_finally, bind, gets, Transceiver.perform;
                              repeat match goal with
                                     | |- context [raises ?h ?e] =>
                                         destruct (raises h e);
                                         cbn [trace record_event snd outgoing_uri]
                                     end; intros E]];
      apply (f_equal trace) in E; cbn in E;
      rewrite <- ?app_assoc in E; cbn in E;
      apply (f_equal length) in E; rewrite ?length_app in E; cbn in E; lia.
  - intros Hm. revert E. unfold Transceiver.message_out. rewrite Hm.
    cbn. intros E. apply (f_equal trace) in E. cbn in E.
    apply (f_equal length) in E. rewrite length_app in E.
    destruct evs; [reflexivity | cbn in E; lia].
Qed.

(** X21: [publish] hands its frame to the transceiver and does nothing
    else: whoever is subscribed to the signal in this registry, no callback
    is called by [publish] itself, nothing is logged and the table is left
    alone. The subscribers here are reached only by what comes back from
    the hub. *)
Theorem publish_calls_no_subscriber signal data w :
  exists evs,
    trace (snd (Register.publish raises json_dumps signal data w)) = trace w ++ evs
    /\ calls evs = []
    /\ _subscriptions (snd (Register.publish raises json_dumps signal data w))
       = _subscriptions w.
Proof.
  unfold Register.publish, bind, gets, lift.
  destruct (Frames.dispatch_message _ _ _ _ _) as [frame|e].
  - destruct (message_out_events frame w) as (evs & E & F).
    exists evs. rewrite E. repeat split.
    clear E. induction F as [|x evs Hx _ IH]; [reflexivity|].
    destruct x; try discriminate Hx. exact IH.
  - exists []. cbn. by rewrite app_nil_r.
Qed.

End OutboundFacts.

(** ** The further theorems at work *)

Lemma validate_signal_idempotent_witness :
  Register.validate_signal (PStr "TEA_TIME") = Ok "TEA_TIME".
Proof.
  apply (validate_signal_idempotent (PStr "  tea_Time ") "TEA_TIME").
  reflexivity.
Defined.

Lemma message_handler_ignores_sync_witness :
  Register.message_handler Demo.quiet Demo.loads
    (PTuple [PStr " Sync"; PStr "stray"]) Demo.three_subscribers
  = (Ok tt, Demo.three_subscribers).
Proof.
  apply (message_handler_ignores_sync Demo.quiet Demo.loads
           (PTuple [PStr " Sync"; PStr "stray"]) (PStr " Sync") [PStr "stray"]
           Demo.three_subscribers eq_refl eq_refl eq_refl).
Defined.

Lemma message_handler_drops_unknown_command_witness :
  Register.message_handler Demo.quiet Demo.loads
    (PTuple [PStr "PUBLISH"; PStr "{}"]) Demo.three_subscribers
  = (Ok tt,
     record_event
       (ELog ERROR "message_handler: unknown command <%s> no action taken."
          [PStr "publish"]) Demo.three_subscribers).
Proof.
  apply (message_handler_drops_unknown_command Demo.quiet Demo.loads
           (PTuple [PStr "PUBLISH"; PStr "{}"]) "PUBLISH" [PStr "{}"]
           Demo.three_subscribers eq_refl eq_refl);
    discriminate.
Defined.

Lemma message_handler_hub_present_witness :
  Register.message_handler Demo.quiet Demo.loads
    (PTuple [PStr "HUB_PRESENT"]) Demo.fresh
  = (Ok tt,
     record_event
       (ELog ERROR
          "message_handler: no version data found in hub present message!" [])
       Demo.fresh)
  /\ Register.message_handler Demo.quiet Demo.loads
       (PTuple [PStr "HUB_PRESENT"; PStr "{}"]) Demo.fresh
     = (Ok tt, Demo.fresh).
Proof.
  split.
  - apply (proj1 (message_handler_hub_present Demo.quiet Demo.loads
                    (PTuple [PStr "HUB_PRESENT"]) (PStr "HUB_PRESENT") Demo.fresh
                    eq_refl eq_refl)).
    reflexivity.
  - apply (proj2 (message_handler_hub_present Demo.quiet Demo.loads
                    (PTuple [PStr "HUB_PRESENT"; PStr "{}"]) (PStr "HUB_PRESENT")
                    Demo.fresh eq_refl eq_refl)
             (PStr "{}") [] (PDict []) eq_refl eq_refl).
Defined.

Lemma message_handler_bad_json_escapes_witness :
  Register.message_handler Demo.quiet Demo.loads
    (PTuple [PStr "DISPATCH"; PStr "abc"; PStr "tea_time"; PStr "{oops"; PStr "0"])
    Demo.three_subscribers
  = (Raise ValueError, Demo.three_subscribers).
Proof.
  apply (proj1 (message_handler_bad_json_escapes Demo.quiet Demo.loads
                  (PTuple [PStr "DISPATCH"; PStr "abc"; PStr "tea_time";
                           PStr "{oops"; PStr "0"])
                  (PStr "DISPATCH") (PStr "abc") (PStr "tea_time") "{oops"
                  (PStr "0") [] Demo.three_subscribers eq_refl eq_refl));
    reflexivity.
Defined.

Lemma message_handler_ignores_unsubscribed_signal_witness :
  Register.message_handler Demo.quiet Demo.loads
    (PTuple [PStr "DISPATCH"; PStr "abc"; PStr "coffee_time"; PStr "{}"; PStr "0"])
    Demo.three_subscribers
  = (Ok tt, Demo.three_subscribers).
Proof.
  apply (message_handler_ignores_unsubscribed_signal Demo.quiet Demo.loads
           (PTuple [PStr "DISPATCH"; PStr "abc"; PStr "coffee_time"; PStr "{}";
                    PStr "0"])
           (PStr "DISPATCH") (PStr "abc") (PStr "coffee_time") (PStr "{}")
           (PStr "0") (PDict []) "COFFEE_TIME" Demo.three_subscribers
           eq_refl eq_refl eq_refl eq_refl eq_refl eq_refl).
Defined.

Lemma message_handler_blank_signal_escapes_witness :
  Register.message_handler Demo.quiet Demo.loads
    (PTuple [PStr "DISPATCH"; PStr "abc"; PStr "  "; PStr "{}"; PStr "0"])
    Demo.three_subscribers
  = (Raise ValueError, Demo.three_subscribers).
Proof.
  apply (message_handler_blank_signal_escapes Demo.quiet Demo.loads
           (PTuple [PStr "DISPATCH"; PStr "abc"; PStr "  "; PStr "{}"; PStr "0"])
           (PStr "DISPATCH") (PStr "abc") "  " (PStr "{}") (PStr "0") (PDict [])
           Demo.three_subscribers eq_refl eq_refl eq_refl eq_refl eq_refl).
Defined.

Lemma message_handler_command_case_witness :
  Register.message_handler Demo.quiet Demo.loads
    (PTuple [PStr " tea_time "; PStr "abc"]) Demo.fresh
  = Register.message_handler Demo.quiet Demo.loads
      (PTuple [PStr "Tea_Time"; PStr "abc"]) Demo.fresh.
Proof.
  apply (proj1 (message_handler_command_case Demo.quiet Demo.loads
                  " tea_time " "Tea_Time" [PStr "abc"] Demo.fresh
                  tea_time_variants)).
Defined.

Lemma subscribe_appends_witness :
  exists w',
    Register.subscribe (PStr "tea_time") (PFunc 4) Demo.three_subscribers
    = (Ok tt, w')
    /\ _subscriptions w' !! "TEA_TIME" = Some [PFunc 1; PFunc 2; PFunc 3; PFunc 4].
Proof.
  destruct (subscribe_appends (PStr "tea_time") "TEA_TIME" 4
              Demo.three_subscribers eq_refl)
    as (w' & Hrun & Hlist & _).
  exists w'. split; [exact Hrun | exact Hlist].
Defined.

Lemma subscribe_invalid_signal_witness :
  Register.subscribe (PStr "   ") (PFunc 1) Demo.fresh = (Raise ValueError, Demo.fresh)
  /\ Register.subscribe PNone (PFunc 1) Demo.fresh = (Raise ValueError, Demo.fresh).
Proof.
  split.
  - apply (subscribe_invalid_signal (PStr "   ") (PFunc 1) Demo.fresh).
    intros k. discriminate.
  - apply (subscribe_invalid_signal PNone (PFunc 1) Demo.fresh).
    intros k. discriminate.
Defined.

Lemma subscription_order_is_call_order_witness :
  exists w2 evs,
    (Register.subscribe (PStr "tea_time") (PFunc 8) ;;
     Register.subscribe (PStr " Tea_Time") (PFunc 9)) Demo.fresh
    = (Ok tt, w2)
    /\ Register.handle_dispath_message Demo.second_fails
         (PStr "abc") (PStr "TEA_TIME") (PDict []) (PStr "0") w2
       = (Ok tt, add_events evs w2)
    /\ calls evs
       = [ECall 8 [PStr "abc"; PDict []; PNone];
          ECall 9 [PStr "abc"; PDict []; PNone]].
Proof.
  apply (subscription_order_is_call_order Demo.second_fails
           (PStr "tea_time") (PStr " Tea_Time") "TEA_TIME" 8 9
           (PStr "abc") (PStr "TEA_TIME") (PDict []) (PStr "0") Demo.fresh
           eq_refl eq_refl eq_refl).
Defined.

Lemma unsubscribe_keeps_subscriber_witness :
  exists w2 evs,
    (Register.subscribe (PStr "tea_time") (PFunc 8) ;;
     Register.unsubscribe (PStr "tea_time") (PFunc 8)) Demo.fresh
    = (Ok tt, w2)
    /\ _subscriptions w2 !! "TEA_TIME" = Some [PFunc 8]
    /\ Register.handle_dispath_message Demo.quiet
         (PStr "abc") (PStr "tea_time") (PDict []) (PStr "0") w2
       = (Ok tt, add_events evs w2)
    /\ In (ECall 8 [PStr "abc"; PDict []; PNone]) evs.
Proof.
  apply (unsubscribe_keeps_subscriber Demo.quiet
           (PStr "tea_time") "TEA_TIME" 8
           (PStr "abc") (PStr "tea_time") (PDict []) (PStr "0") Demo.fresh
           eq_refl eq_refl).
Defined.

Lemma message_out_socket_failure_witness :
  Transceiver.message_out Faults.no_socket (PList [PStr "SYNC"]) Demo.fresh
  = (Raise ZMQError, add_events [EZmq ZContext; EZmq ZSocketPush] Demo.fresh).
Proof.
  apply (message_out_socket_failure Faults.no_socket (PList [PStr "SYNC"])
           ZMQError Demo.fresh eq_refl eq_refl eq_refl).
Defined.

Lemma message_out_always_closes_witness :
  exists evs,
    snd (Transceiver.message_out Faults.no_hub (PList [PStr "SYNC"]) Demo.fresh)
    = add_events
        ([EZmq ZContext; EZmq ZSocketPush; EZmq (ZConnect "tcp://localhost:15567")]
         ++ evs) Demo.fresh
    /\ In (EZmq ZClose) evs.
Proof.
  apply (message_out_always_closes Faults.no_hub (PList [PStr "SYNC"])
           Demo.fresh eq_refl eq_refl eq_refl).
Defined.

Lemma message_out_failure_skips_the_rest_witness :
  Transceiver.message_out Faults.no_sync (PTuple [PStr "HUB_PRESENT"; PStr "{}"])
    Demo.fresh
  = (Raise ZMQError,
     add_events
       [EZmq ZContext; EZmq ZSocketPush; EZmq (ZConnect "tcp://localhost:15567");
        EZmq (ZSendMultipart (PList [PStr "SYNC"])); EZmq ZClose; EZmq ZTerm]
       Demo.fresh)
  /\ Transceiver.message_out Faults.no_hub (PTuple [PStr "HUB_PRESENT"; PStr "{}"])
       Demo.fresh
     = (Raise ZMQError,
        add_events
          [EZmq ZContext; EZmq ZSocketPush; EZmq (ZConnect "tcp://localhost:15567");
           EZmq ZClose; EZmq ZTerm]
          Demo.fresh).
Proof.
  split.
  - apply (proj1 (proj2 (message_out_failure_skips_the_rest Faults.no_sync
                           (fun _ => eq_refl) (fun _ => eq_refl)
                           (fun _ => eq_refl) (fun _ => eq_refl)
                           (PTuple [PStr "HUB_PRESENT"; PStr "{}"]) ZMQError
                           Demo.fresh eq_refl)));
      intros; reflexivity.
  - apply (proj1 (message_out_failure_skips_the_rest Faults.no_hub
                    (fun _ => eq_refl) (fun _ => eq_refl)
                    (fun _ => eq_refl) (fun _ => eq_refl)
                    (PTuple [PStr "HUB_PRESENT"; PStr "{}"]) ZMQError
                    Demo.fresh eq_refl));
      intros; reflexivity.
Defined.

Lemma message_out_close_failure_witness :
  exists evs,
    Transceiver.message_out Faults.no_close (PTuple [PStr "HUB_PRESENT"; PStr "{}"])
      Demo.fresh
    = (Raise ZMQError, add_events evs Demo.fresh)
    /\ ~ In (EZmq ZTerm) evs.
Proof.
  apply (message_out_close_failure Faults.no_close
           (PTuple [PStr "HUB_PRESENT"; PStr "{}"]) ZMQError Demo.fresh
           eq_refl (fun _ => eq_refl) (fun _ => eq_refl) (fun _ => eq_refl)).
Defined.
